(** * The conditional Cython build step of NLTK's [setup.py]

    A shallow embedding of [build_cythonized] (setup.py, lines 88-117) and of
    the module-level definitions it reads ([MODULES_TO_COMPILE],
    [setup_reqs]), followed by the properties of the step.

    Python objects live in a heap addressed by references, so that the
    difference between "the same object" and "an equal object" is visible:
    [dict.copy()] and [list.copy()] allocate.  The two methods of the step
    are written in a state-and-exception monad over the interpreter state.
    Code that is not part of the repository (distutils' [build] command and
    the Cython package) is taken as a parameter. *)

From stdpp Require Import gmap strings list fin_maps.
From Stdlib Require Import DecimalString.

Local Open Scope string_scope.
Local Open Scope list_scope.
Local Open Scope nat_scope.

(** ** Python strings *)

Module PyStr.

(** [s.replace(old, new)] for a non-empty [old]: scan left to right, replace
    each non-overlapping occurrence.  [skip] counts the characters of a
    matched occurrence that are still to be dropped. *)
Fixpoint replace_from (old new : string) (skip : nat) (s : string) : string :=
  match s with
  | "" => ""
  | String c s' =>
      match skip with
      | S k => replace_from old new k s'
      | O =>
          if String.prefix old s
          then new +:+ replace_from old new (String.length old - 1) s'
          else String c (replace_from old new 0 s')
      end
  end.

(** With an empty [old] Python inserts [new] before every character and at
    the end. *)
Fixpoint intersperse (new : string) (s : string) : string :=
  match s with
  | "" => new
  | String c s' => new +:+ String c (intersperse new s')
  end.

Definition replace (s old new : string) : string :=
  match old with
  | "" => intersperse new s
  | _ => replace_from old new 0 s
  end.

(** ["%d" % n] for a natural number. *)
Definition fmt_d (n : nat) : string := NilZero.string_of_uint (Nat.to_uint n).

End PyStr.

(** ** Python objects *)

Definition loc := nat.

(** A value is [None] or a reference to a heap object. *)
Inductive value :=
| VNone
| VRef (l : loc).

(** The objects the step meets: the command table is a [dict] from command
    names to classes, the extension list a [list] of [Extension] objects;
    classes and [Extension]s have no [copy] method and compare by identity.
    [OOpaque] stands for such an object, or any other that is true in
    Python's sense and has no [copy] method (a non-empty tuple).  An object
    that is false without being [None], a dict or a list (an empty tuple)
    is not represented. *)
Inductive object :=
| ODict (items : gmap string value)
| OList (items : list value)
| OOpaque (descr : string).

#[global] Instance value_eq_dec : EqDecision value.
Proof. solve_decision. Defined.

#[global] Instance object_eq_dec : EqDecision object.
Proof. solve_decision. Defined.

Record exn := Exn { exn_class : string; exn_msg : string }.

#[global] Instance exn_eq_dec : EqDecision exn.
Proof. solve_decision. Defined.

Inductive result (A : Type) :=
| Ok (a : A)
| Raised (e : exn).

Arguments Ok {A} a.
Arguments Raised {A} e.

(** [bool(v)]: [None] and empty containers are false; the objects
    [OOpaque] stands for are true. *)
Definition truthy (h : list object) (v : value) : bool :=
  match v with
  | VNone => false
  | VRef l =>
      match h !! l with
      | Some (ODict d) => bool_decide (d ≠ ∅)
      | Some (OList xs) => bool_decide (xs ≠ [])
      | _ => true
      end
  end.

(** ** The interpreter state *)

(** The two fields of [self.distribution] the step reads and writes. *)
Record distribution := Distribution {
  cmdclass : value;
  ext_modules : value;
}.

(** What the inherited command can see and change: the distribution and
    the heap. *)
Record world := World {
  dist : distribution;
  heap : list object;
}.

(** The attributes [__init__] adds to the command object. *)
Record command := Command {
  stored_options : gmap string value;
  should_cythonize : bool;
}.

Inductive field := Fcmdclass | Fext_modules.

Inductive phase := Pfinalize_options | Prun.

(** A record of what the step itself did, in order (ghost state: it is not
    read by the code). *)
Inductive event :=
| EvSnapshot (c e : value)
| EvCythonize (files : list string) (language_level : nat) (exclude : list string)
| EvMutate (v : value)
| EvInherited (p : phase)
| EvRestore (f : field) (v : value).

#[global] Instance field_eq_dec : EqDecision field.
Proof. solve_decision. Defined.

#[global] Instance phase_eq_dec : EqDecision phase.
Proof. solve_decision. Defined.

#[global] Instance event_eq_dec : EqDecision event.
Proof. solve_decision. Defined.

(** [announced] holds the records the command handed to distutils' logger
    through [self.announce], with their level. *)
Record state := State {
  self : command;
  wld : world;
  announced : list (nat * string);
  trace : list event;
}.

(** ** A state-and-exception monad

    An exception leaves the state as it was when it was raised: Python does
    not roll mutations back. *)

Definition M (A : Type) : Type := state → result A * state.

Definition ret {A} (a : A) : M A := λ σ, (Ok a, σ).

Definition raise {A} (e : exn) : M A := λ σ, (Raised e, σ).

Definition bind {A B} (m : M A) (k : A → M B) : M B :=
  λ σ, match m σ with
       | (Ok a, σ') => k a σ'
       | (Raised e, σ') => (Raised e, σ')
       end.

Notation "'let*' x := m 'in' k" := (bind m (λ x, k))
  (at level 10, x name, m at level 100, k at level 200).
Notation "m ;;; k" := (bind m (λ _, k))
  (at level 100, k at level 200, right associativity).

Definition gets {A} (f : state → A) : M A := λ σ, (Ok (f σ), σ).

Definition modify (f : state → state) : M unit := λ σ, (Ok tt, f σ).

Definition emit (ev : event) : M unit :=
  modify (λ σ, State (self σ) (wld σ) (announced σ) (trace σ ++ [ev])).

Definition set_world (f : world → world) : M unit :=
  modify (λ σ, State (self σ) (f (wld σ)) (announced σ) (trace σ)).

Definition set_self (f : command → command) : M unit :=
  modify (λ σ, State (f (self σ)) (wld σ) (announced σ) (trace σ)).

(** Allocation of a new object: the next free address. *)
Definition alloc (o : object) : M value :=
  let* h := gets (λ σ, heap (wld σ)) in
  set_world (λ w, World (dist w) (heap w ++ [o])) ;;;
  ret (VRef (length h)).

Fixpoint alloc_all (os : list object) : M (list value) :=
  match os with
  | [] => ret []
  | o :: os' =>
      let* v := alloc o in
      let* vs := alloc_all os' in
      ret (v :: vs)
  end.

Definition AttributeError (what : string) : exn :=
  Exn "AttributeError" ("object has no attribute '" +:+ what +:+ "'").

Definition KeyError (key : string) : exn := Exn "KeyError" key.

Definition ModuleNotFoundError (name : string) : exn :=
  Exn "ModuleNotFoundError" ("No module named '" +:+ name +:+ "'").

(** [v.copy()]: a new dict or list with the same items (a shallow copy);
    anything else has no such method. *)
Definition copy (v : value) : M value :=
  match v with
  | VNone => raise (AttributeError "copy")
  | VRef l =>
      let* h := gets (λ σ, heap (wld σ)) in
      match h !! l with
      | Some (ODict d) => alloc (ODict d)
      | Some (OList xs) => alloc (OList xs)
      | _ => raise (AttributeError "copy")
      end
  end.

(** [d[key]] on [self.stored_options]. *)
Definition getitem (key : string) : M value :=
  let* so := gets (λ σ, stored_options (self σ)) in
  match so !! key with
  | Some v => ret v
  | None => raise (KeyError key)
  end.

(** [distutils.log.INFO]. *)
Definition INFO : nat := 2.

(** [self.announce(msg, level)] hands the record to the logger. *)
Definition announce (msg : string) (level : nat) : M unit :=
  modify (λ σ, State (self σ) (wld σ) (announced σ ++ [(level, msg)]) (trace σ)).

(** ** setup.py *)

(** [os.environ] and [os.getenv]. *)
Definition getenv (environ : gmap string string) (name : string) : option string :=
  environ !! name.

(** Lines 52-55. *)
Definition setup_reqs (environ : gmap string string) : list string :=
  if bool_decide (getenv environ "CYTHONIZE_NLTK" = Some "true")
  then [] ++ ["Cython >= 0.28.5"]
  else [].

(** Lines 63-86, the entries that are not commented out. *)
Definition MODULES_TO_COMPILE : list string :=
  [ "nltk.chat.*"; "nltk.chunk.*"; "nltk.cluster.*"; "nltk.draw.*";
    "nltk.grammar"; "nltk.lm.*"; "nltk.metrics.*"; "nltk.misc.*";
    "nltk.parse.chart"; "nltk.probability"; "nltk.sem.*";
    "nltk.sentiment.*"; "nltk.stem.*"; "nltk.tbl.*"; "nltk.tokenize.*";
    "nltk.translate.*"; "nltk.twitter.*"; "nltk.util" ].

(** The Cython package as the step uses it: its version string and
    [Cython.Build.cythonize], which raises or describes the extensions it
    prepared.  It holds no reference to the distribution. *)
Record cython := Cython {
  __version__ : string;
  cythonize : list string → nat → list string → result (list string);
}.

(** The keyword arguments of the call on line 108. *)
Definition language_level : nat := 3.
Definition exclude : list string := ["**/__init__.py"].

Module build_cythonized.
Section step.

(** [os.path.sep]. *)
Variable sep : string.

(** The selector list; the script passes [MODULES_TO_COMPILE]. *)
Variable modules_to_compile : list string.

(** [None] when [import Cython] fails. *)
Variable Cython_pkg : option cython.

(** [build_orig.finalize_options] and [build_orig.run]. *)
Variable build_orig_finalize_options : world → result unit * world.
Variable build_orig_run : world → result unit * world.

(** Lines 89-92.  The inherited constructor sets nothing the step reads. *)
Definition __init__ (environ : gmap string string) : command :=
  {| stored_options := ∅;
     should_cythonize := bool_decide (getenv environ "CYTHONIZE_NLTK" = Some "true") |}.

(** [super(build_cythonized, self).<phase>()]. *)
Definition super (p : phase) (f : world → result unit * world) : M unit :=
  emit (EvInherited p) ;;;
  λ σ, let '(r, w') := f (wld σ) in (r, State (self σ) w' (announced σ) (trace σ)).

(** [x.copy() if x else None] (lines 99 and 100). *)
Definition copy_or_None (v : value) : M value :=
  let* h := gets (λ σ, heap (wld σ)) in
  if truthy h v then copy v else ret VNone.

(** Line 106. *)
Definition files : list string :=
  (λ name, PyStr.replace name "." sep +:+ ".py") <$> modules_to_compile.

(** [import Cython] and [from Cython.Build import cythonize]. *)
Definition import_Cython : M cython :=
  match Cython_pkg with
  | Some cy => ret cy
  | None => raise (ModuleNotFoundError "Cython")
  end.

(** The call on line 108: new [Extension] objects in a new list. *)
Definition call_cythonize (cy : cython) (fs : list string)
    (level : nat) (excl : list string) : M value :=
  emit (EvCythonize fs level excl) ;;;
  match cythonize cy fs level excl with
  | Raised e => raise e
  | Ok names =>
      let* exts := alloc_all (OOpaque <$> names) in
      alloc (OList exts)
  end.

(** Lines 98-101: the snapshot.  Both entries are evaluated before
    [update] stores them. *)
Definition store_options : M unit :=
  let* c0 := gets (λ σ, cmdclass (dist (wld σ))) in
  let* c := copy_or_None c0 in
  let* e0 := gets (λ σ, ext_modules (dist (wld σ))) in
  let* e := copy_or_None e0 in
  set_self (λ s, Command (<["cmdclass" := c]> (<["ext_modules" := e]> (stored_options s)))
                         (should_cythonize s)) ;;;
  emit (EvSnapshot c e).

(** The progress line of line 107. *)
Definition progress_message (n : nat) (version : string) : string :=
  "Compiling " +:+ PyStr.fmt_d n +:+ " modules using Cython " +:+ version.

(** Lines 104-108: import, announce, compile, replace [ext_modules]. *)
Definition cythonize_modules : M unit :=
  let* cy := import_Cython in
  let fs := files in
  announce (progress_message (length fs) (__version__ cy)) INFO ;;;
  let* exts := call_cythonize cy fs language_level exclude in
  set_world (λ w, World (Distribution (cmdclass (dist w)) exts) (heap w)) ;;;
  emit (EvMutate exts).

(** Lines 94-109. *)
Definition finalize_options : M unit :=
  let* flag := gets (λ σ, should_cythonize (self σ)) in
  (if flag : bool then store_options ;;; cythonize_modules else ret tt) ;;;
  super Pfinalize_options build_orig_finalize_options.

(** Lines 111-117. *)
Definition run : M unit :=
  super Prun build_orig_run ;;;
  let* flag := gets (λ σ, should_cythonize (self σ)) in
  if flag : bool then
    let* c := getitem "cmdclass" in
    set_world (λ w, World (Distribution c (ext_modules (dist w))) (heap w)) ;;;
    emit (EvRestore Fcmdclass c) ;;;
    let* e := getitem "ext_modules" in
    set_world (λ w, World (Distribution (cmdclass (dist w)) e) (heap w)) ;;;
    emit (EvRestore Fext_modules e)
  else ret tt.

(** One build invocation: the framework configures the command, then
    executes it; an exception ends the invocation. *)
Definition invoke : M unit := finalize_options ;;; run.

End step.
End build_cythonized.

(** ** Vocabulary of the properties *)

(** Equality by value of a field before (in heap [h]) and after (in heap
    [h']): both [None], or two dicts or two lists with the same items.  The
    items are classes and [Extension] objects, which Python's [==] compares
    by identity; such an object is equal only to itself. *)
Definition same_value (h : list object) (v : value) (h' : list object) (v' : value) : bool :=
  match v, v' with
  | VNone, VNone => true
  | VRef l, VRef l' =>
      match h !! l, h' !! l' with
      | Some (ODict d), Some (ODict d') => bool_decide (d = d')
      | Some (OList xs), Some (OList xs') => bool_decide (xs = xs')
      | Some (OOpaque _), Some (OOpaque _) => bool_decide (l = l')
      | _, _ => false
      end
  | _, _ => false
  end.

(** Both fields of the distribution, by value. *)
Definition same_description (w w' : world) : bool :=
  same_value (heap w) (cmdclass (dist w)) (heap w') (cmdclass (dist w')) &&
  same_value (heap w) (ext_modules (dist w)) (heap w') (ext_modules (dist w')).

(** What the write-back of [run] leaves in a field whose value was [v]
    before the configuration phase: a container with the same items when
    [v] was a non-empty container, [None] when [v] was [None] or empty. *)
Definition restored (h : list object) (v : value) (h' : list object) (v' : value) : Prop :=
  if truthy h v then same_value h v h' v' = true else v' = VNone.

(** [o] holds a reference to address [l]. *)
Definition refers (o : object) (l : loc) : Prop :=
  match o with
  | ODict d => ∃ k, d !! k = Some (VRef l)
  | OList xs => VRef l ∈ xs
  | OOpaque _ => False
  end.

Definition is_root (w : world) (l : loc) : Prop :=
  cmdclass (dist w) = VRef l ∨ ext_modules (dist w) = VRef l.

(** No dangling reference: Python never holds one. *)
Definition closed (w : world) : Prop :=
  (∀ l, is_root w l → l < length (heap w)) ∧
  (∀ a o l, heap w !! a = Some o → refers o l → l < length (heap w)).

(** The objects in [P] are allocated and nothing outside [P] refers to
    them: code that starts from the distribution cannot reach them. *)
Definition isolated (P : loc → Prop) (w : world) : Prop :=
  (∀ l, P l → l < length (heap w) ∧ ¬ is_root w l) ∧
  (∀ a o l, heap w !! a = Some o → ¬ P a → P l → ¬ refers o l).

(** The contract assumed of the inherited phases where a property needs
    one: they keep the heap free of dangling references and neither change
    nor obtain a reference to objects they cannot reach. *)
Definition well_behaved (f : world → result unit * world) : Prop :=
  ∀ w r w', f w = (r, w') →
    (closed w → closed w') ∧
    (∀ P, isolated P w → isolated P w' ∧ ∀ l, P l → heap w' !! l = heap w !! l).

(** The events a call appended to the trace. *)
Definition new_events (σ σ' : state) : list event :=
  drop (length (trace σ)) (trace σ').

Definition is_snapshot (ev : event) : bool :=
  match ev with EvSnapshot _ _ => true | _ => false end.

Definition is_mutation (ev : event) : bool :=
  match ev with EvMutate _ => true | _ => false end.

Definition is_restore (f : field) (ev : event) : bool :=
  match ev with EvRestore g _ => bool_decide (f = g) | _ => false end.

Definition count (p : event → bool) (evs : list event) : nat :=
  length (List.filter p evs).

(** Every mutation of the description in [evs] comes after a snapshot. *)
Fixpoint snapshot_first (seen : bool) (evs : list event) : bool :=
  match evs with
  | [] => true
  | ev :: evs' =>
      if is_mutation ev then seen && snapshot_first seen evs'
      else snapshot_first (seen || is_snapshot ev) evs'
  end.

(** An object that has a [copy] method. *)
Definition copyable (o : object) : Prop :=
  match o with OOpaque _ => False | _ => True end.

(** [x.copy() if x else None] seen from outside: the entry [c] stored for a
    field whose value is [v], and the objects [extra] it adds to heap [h]. *)
Definition snap (h : list object) (v c : value) (extra : list object) : Prop :=
  if truthy h v
  then ∃ l o, v = VRef l ∧ h !! l = Some o ∧ copyable o ∧
              c = VRef (length h) ∧ extra = [o]
  else c = VNone ∧ extra = [].

(** The command object after the snapshot. *)
Definition snapshot_of (s : command) (c e : value) : command :=
  Command (<["cmdclass" := c]> (<["ext_modules" := e]> (stored_options s)))
          (should_cythonize s).

(** The world handed to the inherited configuration once [names] came back
    from [cythonize]: [extra] holds the copies of the snapshot, then come
    the new [Extension] objects and the list that holds them, which is the
    new [ext_modules]. *)
Definition compiled (w : world) (extra : list object) (names : list string) : world :=
  let h2 := heap w ++ extra in
  World (Distribution (cmdclass (dist w)) (VRef (length h2 + length names)))
        (h2 ++ (OOpaque <$> names) ++ [OList (VRef <$> seq (length h2) (length names))]).

(** The inherited phases alone, as the framework would run [build_orig]. *)
Definition inherited_only (bf br : world → result unit * world) (w : world)
    : result unit * world :=
  match bf w with
  | (Ok _, w1) => br w1
  | (Raised e, w1) => (Raised e, w1)
  end.

(** [c] is [None] for a false [v], and otherwise refers, in [h'], to an
    object with the contents [v] had in [h]. *)
Definition copied (h : list object) (v : value) (h' : list object) (c : value) : Prop :=
  if truthy h v
  then ∃ l0 o l, v = VRef l0 ∧ h !! l0 = Some o ∧ copyable o ∧
                 c = VRef l ∧ length h ≤ l ∧ h' !! l = Some o
  else c = VNone.

(** The four ways the configuration phase of a command whose flag is set
    can end, from state [State s w lg t]: [copy] raised while the snapshot
    was evaluated; the import of Cython failed; [cythonize] raised; or the
    inherited configuration ran, with result [r]. *)
Inductive finalize_outcome (sep : string) (mods : list string) (pkg : option cython)
    (bf : world → result unit * world)
    (s : command) (w : world) (lg : list (nat * string)) (t : list event)
    : result unit → state → Prop :=
| fo_copy_raised σ' :
    self σ' = s → trace σ' = t → announced σ' = lg →
    dist (wld σ') = dist w → heap w `prefix_of` heap (wld σ') →
    finalize_outcome sep mods pkg bf s w lg t (Raised (AttributeError "copy")) σ'
| fo_no_Cython c e hc he :
    snap (heap w) (cmdclass (dist w)) c hc →
    snap (heap w ++ hc) (ext_modules (dist w)) e he →
    pkg = None →
    finalize_outcome sep mods pkg bf s w lg t
      (Raised (ModuleNotFoundError "Cython"))
      (State (snapshot_of s c e) (World (dist w) (heap w ++ hc ++ he)) lg
             (t ++ [EvSnapshot c e]))
| fo_cythonize_raised c e hc he cy x :
    snap (heap w) (cmdclass (dist w)) c hc →
    snap (heap w ++ hc) (ext_modules (dist w)) e he →
    pkg = Some cy →
    cythonize cy (build_cythonized.files sep mods) language_level exclude = Raised x →
    finalize_outcome sep mods pkg bf s w lg t
      (Raised x)
      (State (snapshot_of s c e) (World (dist w) (heap w ++ hc ++ he))
             (lg ++ [(INFO, build_cythonized.progress_message
                               (length (build_cythonized.files sep mods)) (__version__ cy))])
             (t ++ [EvSnapshot c e;
                    EvCythonize (build_cythonized.files sep mods) language_level exclude]))
| fo_configured c e hc he cy names r w4 :
    snap (heap w) (cmdclass (dist w)) c hc →
    snap (heap w ++ hc) (ext_modules (dist w)) e he →
    pkg = Some cy →
    cythonize cy (build_cythonized.files sep mods) language_level exclude = Ok names →
    bf (compiled w (hc ++ he) names) = (r, w4) →
    finalize_outcome sep mods pkg bf s w lg t
      r
      (State (snapshot_of s c e) w4
             (lg ++ [(INFO, build_cythonized.progress_message
                               (length (build_cythonized.files sep mods)) (__version__ cy))])
             (t ++ [EvSnapshot c e;
                    EvCythonize (build_cythonized.files sep mods) language_level exclude;
                    EvMutate (VRef (length (heap w ++ hc ++ he) + length names));
                    EvInherited Pfinalize_options])).

(** The events of an invocation that goes through every line of both
    phases, in order. *)
Definition full_trace (files : list string) (c e v : value) : list event :=
  [EvSnapshot c e; EvCythonize files language_level exclude; EvMutate v;
   EvInherited Pfinalize_options; EvInherited Prun;
   EvRestore Fcmdclass c; EvRestore Fext_modules e].

(** ** Concrete builds *)

Module Scenario.

(** The distribution of the script itself: [cmdclass={'build':
    build_cythonized}] (lines 178-180) and no [ext_modules]. *)
Definition world0 : world :=
  World (Distribution (VRef 1) VNone)
        [OOpaque "class build_cythonized"; ODict {["build" := VRef 0]}].

(** A distribution that already has one extension. *)
Definition world_ext : world :=
  World (Distribution (VRef 1) (VRef 3))
        [OOpaque "class build_cythonized"; ODict {["build" := VRef 0]};
         OOpaque "Extension nltk._speedups"; OList [VRef 2]].

(** A distribution whose two fields are empty collections. *)
Definition world_empty : world :=
  World (Distribution (VRef 0) (VRef 1)) [ODict ∅; OList []].

Definition environ_on : gmap string string := {["CYTHONIZE_NLTK" := "true"]}.

(** The command as the framework constructs it, before its first phase. *)
Definition start (environ : gmap string string) (w : world) : state :=
  State (build_cythonized.__init__ environ) w [] [].

(** A Cython that prepares two extensions. *)
Definition Cython_ok : cython :=
  Cython "0.29.14" (λ _ _ _, Ok ["nltk.grammar"; "nltk.util"]).

(** The selectors of the scenario of the specification, and a Cython run
    where [pkgB] holds [mod2.py] and [__init__.py]: the initializer is
    excluded by Cython, which prepares [pkgA.mod1] and [pkgB.mod2]. *)
Definition selectors_AB : list string := ["pkgA.mod1"; "pkgB.*"].

Definition Cython_AB : cython :=
  Cython "0.29.14" (λ _ _ _, Ok ["pkgA.mod1"; "pkgB.mod2"]).

(** A selector that names a module that does not exist, and the error
    Cython raises for it. *)
Definition selectors_missing : list string := ["pkgA.missing"].

Definition no_such_file : exn :=
  Exn "ValueError" "'pkgA/missing.py' doesn't match any files".

Definition Cython_missing : cython :=
  Cython "0.29.14" (λ _ _ _, Raised no_such_file).

(** Inherited phases: one that does nothing, one that fails, and one that,
    like [Distribution.get_command_class], caches a command class in the
    command table it finds in the distribution. *)
Definition inherited_ok (w : world) : result unit * world := (Ok tt, w).

Definition toolchain_error : exn :=
  Exn "CompileError" "command 'gcc' failed with exit status 1".

Definition inherited_fails (w : world) : result unit * world :=
  (Raised toolchain_error, w).

Definition inherited_caching (w : world) : result unit * world :=
  match cmdclass (dist w) with
  | VRef l =>
      match heap w !! l with
      | Some (ODict d) =>
          (Ok tt,
           World (dist w)
                 (<[l := ODict (<["build_py" := VRef (length (heap w))]> d)]> (heap w)
                  ++ [OOpaque "class build_py"]))
      | _ => (Ok tt, w)
      end
  | VNone => (Ok tt, w)
  end.

End Scenario.


(** ** The rest of the script *)

Module Script.

(** *** Lines 14-20: the mbcs codec *)






(** *** Lines 25-27: the version *)

(** A text is a string of characters with code points 0 to 255; a
    character beyond U+00FF is not represented.  [str.isspace] on that
    range: the code points 9 to 13 (tab, line feed, vertical tab, form
    feed, carriage return), 28 to 32 (the four separators and the space),
    133 (next line) and 160 (no-break space). *)
Definition is_space (c : Strings.Ascii.ascii) : bool :=
  let n := Strings.Ascii.nat_of_ascii c in
  (Nat.leb 9 n && Nat.leb n 13) || (Nat.leb 28 n && Nat.leb n 32)
  || Nat.eqb n 133 || Nat.eqb n 160.

Fixpoint lstrip (s : string) : string :=
  match s with
  | "" => ""
  | String c s' => if is_space c then lstrip s' else s
  end.

Fixpoint rstrip (s : string) : string :=
  match s with
  | "" => ""
  | String c s' =>
      match rstrip s' with
      | "" => if is_space c then "" else String c ""
      | r => String c r
      end
  end.

(** [s.strip()]. *)
Definition strip (s : string) : string := rstrip (lstrip s).

Definition FileNotFoundError (path : string) : exn :=
  Exn "FileNotFoundError" ("No such file or directory: '" +:+ path +:+ "'").

(** Lines 26-27.  [files] gives, for each path that exists, what
    [fh.read()] does on it in text mode: the decoded text, newlines
    translated, or the exception raised while decoding.  [open] fails on
    a path that does not exist. *)
Definition nltk_version (files : gmap string (result string)) (version_file : string)
    : result string :=
  match files !! version_file with
  | Some (Ok text) => Ok (strip text)
  | Some (Raised e) => Raised e
  | None => Raised (FileNotFoundError version_file)
  end.

(** *** Lines 35-50: the optional dependencies *)

(** A value of [extras_require] is a list (the literal groups) or a set
    (the groups the script adds). *)
Inductive group :=
| GList (l : list string)
| GSet (s : gset string).

(** The packages met when iterating over a group. *)
Definition packages (g : group) : gset string :=
  match g with
  | GList l => list_to_set l
  | GSet s => s
  end.

(** Lines 35-42. *)
Definition extras_require_literal : gmap string group :=
  list_to_map
    [ ("machine_learning",
       GList ["gensim"; "numpy"; "python-crfsuite"; "scikit-learn"; "scipy"]);
      ("plot", GList ["matplotlib"]);
      ("tgrep", GList ["pyparsing"]);
      ("twitter", GList ["twython"]);
      ("corenlp", GList ["requests"]);
      ("cli", GList ["click"; "joblib"; "tqdm"]) ].

(** Lines 45-47: the set comprehension runs over the values the dict has
    at that moment, then the result is stored under "all". *)
Definition add_all (d : gmap string group) : gmap string group :=
  <["all" := GSet (⋃ (packages <$> (map_to_list d).*2))]> d.

Definition TypeError (msg : string) : exn := Exn "TypeError" msg.

(** Line 50: [extras_require["all"] | set(['Cython >= 0.28.5'])]; the
    operator [|] is not defined between a list and a set. *)
Definition add_cythonize (d : gmap string group) : result (gmap string group) :=
  match d !! "all" with
  | Some (GSet s) => Ok (<["cythonize" := GSet (s ∪ {["Cython >= 0.28.5"]})]> d)
  | Some (GList _) =>
      Raised (TypeError "unsupported operand type(s) for |: 'list' and 'set'")
  | None => Raised (KeyError "all")
  end.

(** [extras_require] as [setup] receives it (line 174). *)
Definition extras_require : result (gmap string group) :=
  add_cythonize (add_all extras_require_literal).

End Script.

(** ** Vocabulary for the rest of the script *)

(** Replacement of one character, written as a fold over the string. *)
Fixpoint subst_char (a : Strings.Ascii.ascii) (new : string) (s : string) : string :=
  match s with
  | "" => ""
  | String c s' =>
      if decide (c = a) then new +:+ subst_char a new s'
      else String c (subst_char a new s')
  end.

(** The character of the string ".". *)
Definition dot : Strings.Ascii.ascii := Strings.Ascii.ascii_of_nat 46.

(** [c] occurs in [s]. *)
Fixpoint occurs (c : Strings.Ascii.ascii) (s : string) : bool :=
  match s with
  | "" => false
  | String c' s' => bool_decide (c' = c) || occurs c s'
  end.

Fixpoint all_space (s : string) : bool :=
  match s with
  | "" => true
  | String c s' => Script.is_space c && all_space s'
  end.

(** [s] does not start with white space. *)
Definition head_ok (s : string) : bool :=
  match s with
  | "" => true
  | String c _ => negb (Script.is_space c)
  end.

(** [s] does not end with white space. *)
Fixpoint last_ok (s : string) : bool :=
  match s with
  | "" => true
  | String c "" => negb (Script.is_space c)
  | String _ s' => last_ok s'
  end.

(** [v] refers to an object that is true in Python's sense and has no
    [copy] method (a non-empty tuple given as [ext_modules], for
    instance). *)
Definition true_without_copy (h : list object) (v : value) : Prop :=
  ∃ l d, v = VRef l ∧ h !! l = Some (OOpaque d).

(** * Properties *)

(** ** Sanity checks of the string functions *)

Example replace_dots : PyStr.replace "nltk.parse.chart" "." "/" = "nltk/parse/chart".
Proof. reflexivity. Qed.

Example replace_longer_pattern : PyStr.replace "a...b" ".." "-" = "a-.b".
Proof. reflexivity. Qed.

Example replace_empty_pattern : PyStr.replace "abc" "" "-" = "-a-b-c-".
Proof. reflexivity. Qed.

Example files_of_the_script :
  length (build_cythonized.files "/" MODULES_TO_COMPILE) = 18 ∧
  build_cythonized.files "/" ["nltk.chat.*"; "nltk.grammar"]
  = ["nltk/chat/*.py"; "nltk/grammar.py"] ∧
  build_cythonized.progress_message 18 "0.29.14"
  = "Compiling 18 modules using Cython 0.29.14".
Proof. vm_compute. done. Qed.

(** ** The monadic primitives *)

Ltac mred :=
  unfold bind, gets, ret, raise, modify, emit, set_world, set_self in *;
  simpl in *.

Lemma copy_or_None_cases v s w lg t :
  build_cythonized.copy_or_None v (State s w lg t)
    = (Raised (AttributeError "copy"), State s w lg t) ∨
  (∃ c extra, snap (heap w) v c extra ∧
     build_cythonized.copy_or_None v (State s w lg t) =
       (Ok c, State s (World (dist w) (heap w ++ extra)) lg t)).
Proof.
  unfold build_cythonized.copy_or_None, copy, alloc, snap. mred.
  destruct (truthy (heap w) v) eqn:Ht.
  - destruct v as [|l]; [done|]. simpl.
    destruct (heap w !! l) as [[d|xs|s']|] eqn:Hl; simpl; eauto 10.
    + right. exists (VRef (length (heap w))), [ODict d].
      split; [|done]. by exists l, (ODict d).
    + right. exists (VRef (length (heap w))), [OList xs].
      split; [|done]. by exists l, (OList xs).
  - right. exists VNone, []. rewrite app_nil_r. by destruct w.
Qed.

Lemma alloc_all_run os s d h lg t :
  alloc_all os (State s (World d h) lg t) =
    (Ok (VRef <$> seq (length h) (length os)), State s (World d (h ++ os)) lg t).
Proof.
  revert h. induction os as [|o os IH]; intros h; simpl.
  - by rewrite app_nil_r.
  - unfold alloc. mred. rewrite IH. simpl.
    rewrite length_app, <- app_assoc. simpl.
    by replace (length h + 1) with (S (length h)) by lia.
Qed.

Lemma snap_inv h v c extra :
  snap h v c extra →
  (truthy h v = false ∧ c = VNone ∧ extra = []) ∨
  (∃ l o, v = VRef l ∧ h !! l = Some o ∧ copyable o ∧ truthy h v = true ∧
          c = VRef (length h) ∧ extra = [o]).
Proof.
  unfold snap. destruct (truthy h v).
  - intros (l & o & -> & Hl & Hc & -> & ->). right. by exists l, o.
  - intros [-> ->]. by left.
Qed.

Lemma truthy_app h extra l :
  l < length h → truthy (h ++ extra) (VRef l) = truthy h (VRef l).
Proof. intros Hl. unfold truthy. by rewrite lookup_app_l. Qed.

(** ** The snapshot (lines 98-101) *)

Lemma store_options_inv s w lg t r σ' :
  build_cythonized.store_options (State s w lg t) = (r, σ') →
  match r with
  | Raised e =>
      e = AttributeError "copy" ∧ self σ' = s ∧ trace σ' = t ∧
      dist (wld σ') = dist w ∧ announced σ' = lg ∧
      heap w `prefix_of` heap (wld σ')
  | Ok _ =>
      ∃ c e hc he,
        snap (heap w) (cmdclass (dist w)) c hc ∧
        snap (heap w ++ hc) (ext_modules (dist w)) e he ∧
        σ' = State (snapshot_of s c e)
                   (World (dist w) (heap w ++ hc ++ he)) lg
                   (t ++ [EvSnapshot c e])
  end.
Proof.
  unfold build_cythonized.store_options. unfold bind at 1 2. unfold gets at 1. simpl.
  destruct (copy_or_None_cases (cmdclass (dist w)) s w lg t) as [->|(c & hc & Hc & ->)].
  { intros [= <- <-]. simpl. repeat split; done. }
  unfold bind at 1 2. unfold gets at 1. simpl.
  destruct (copy_or_None_cases (ext_modules (dist w)) s
              (World (dist w) (heap w ++ hc)) lg t) as [->|(e & he & He & ->)].
  { intros [= <- <-]. simpl. repeat split; try done. by apply prefix_app_r. }
  mred. intros [= <- <-]. exists c, e, hc, he. rewrite <- app_assoc. done.
Qed.

(** ** Compilation (lines 104-108) *)

Section compilation.
Variable sep : string.
Variable mods : list string.

Local Abbreviation files := (build_cythonized.files sep mods).
Local Abbreviation message cy :=
  (build_cythonized.progress_message (length files) (__version__ cy)).

Lemma cythonize_modules_Ok s w lg t cy names :
  cythonize cy files language_level exclude = Ok names →
  build_cythonized.cythonize_modules sep mods (Some cy) (State s w lg t) =
    (Ok tt, State s (compiled w [] names) (lg ++ [(INFO, message cy)])
              (t ++ [EvCythonize files language_level exclude;
                     EvMutate (VRef (length (heap w) + length names))])).
Proof.
  intros Hc.
  unfold build_cythonized.cythonize_modules, build_cythonized.import_Cython,
    build_cythonized.call_cythonize, announce.
  mred. rewrite Hc. destruct w as [d h].
  simpl. rewrite alloc_all_run. unfold alloc. mred.
  unfold compiled. simpl.
  rewrite !app_nil_r, length_app, length_fmap, <- !app_assoc. done.
Qed.

Lemma cythonize_modules_Raised s w lg t cy e :
  cythonize cy files language_level exclude = Raised e →
  build_cythonized.cythonize_modules sep mods (Some cy) (State s w lg t) =
    (Raised e, State s w (lg ++ [(INFO, message cy)])
                 (t ++ [EvCythonize files language_level exclude])).
Proof.
  intros Hc.
  unfold build_cythonized.cythonize_modules, build_cythonized.import_Cython,
    build_cythonized.call_cythonize, announce.
  mred. by rewrite Hc.
Qed.

Lemma cythonize_modules_no_Cython s w lg t :
  build_cythonized.cythonize_modules sep mods None (State s w lg t) =
    (Raised (ModuleNotFoundError "Cython"), State s w lg t).
Proof. done. Qed.
End compilation.

(** ** The two methods *)

Section methods.
Variable sep : string.
Variable mods : list string.
Variable pkg : option cython.
Variable bf br : world → result unit * world.

Local Abbreviation files := (build_cythonized.files sep mods).
Local Abbreviation message cy :=
  (build_cythonized.progress_message (length files) (__version__ cy)).
Local Abbreviation finalize_options := (build_cythonized.finalize_options sep mods pkg bf).
Local Abbreviation run := (build_cythonized.run br).
Local Abbreviation invoke := (build_cythonized.invoke sep mods pkg bf br).

Lemma super_run p f s w lg t :
  build_cythonized.super p f (State s w lg t) =
    (let '(r, w') := f w in (r, State s w' lg (t ++ [EvInherited p]))).
Proof. unfold build_cythonized.super. mred. done. Qed.

Lemma finalize_options_true s w lg t :
  should_cythonize s = true →
  finalize_options (State s w lg t) =
    match build_cythonized.store_options (State s w lg t) with
    | (Ok _, σ1) =>
        match build_cythonized.cythonize_modules sep mods pkg σ1 with
        | (Ok _, σ2) => build_cythonized.super Pfinalize_options bf σ2
        | (Raised e, σ2) => (Raised e, σ2)
        end
    | (Raised e, σ1) => (Raised e, σ1)
    end.
Proof.
  intros Hf. unfold build_cythonized.finalize_options, bind, gets. simpl. rewrite Hf.
  destruct (build_cythonized.store_options _) as [[[]|e] σ1]; [|done].
  by destruct (build_cythonized.cythonize_modules _ _ _ _) as [[[]|e] σ2].
Qed.

Lemma finalize_options_false s w lg t :
  should_cythonize s = false →
  finalize_options (State s w lg t) =
    build_cythonized.super Pfinalize_options bf (State s w lg t).
Proof.
  intros Hf. unfold build_cythonized.finalize_options, bind, gets, ret.
  simpl. by rewrite Hf.
Qed.

Lemma run_false s w lg t :
  should_cythonize s = false →
  run (State s w lg t) = build_cythonized.super Prun br (State s w lg t).
Proof.
  intros Hf. unfold build_cythonized.run. unfold bind at 1. rewrite super_run.
  destruct (br w) as [[[]|e] w']; [|done]. unfold bind, gets, ret. simpl. by rewrite Hf.
Qed.

Lemma run_true s w lg t c e :
  should_cythonize s = true →
  stored_options s !! "cmdclass" = Some c →
  stored_options s !! "ext_modules" = Some e →
  run (State s w lg t) =
    match br w with
    | (Ok _, w') =>
        (Ok tt, State s (World (Distribution c e) (heap w')) lg
                  (t ++ [EvInherited Prun; EvRestore Fcmdclass c;
                         EvRestore Fext_modules e]))
    | (Raised x, w') => (Raised x, State s w' lg (t ++ [EvInherited Prun]))
    end.
Proof.
  intros Hf Hc He. unfold build_cythonized.run. unfold bind at 1. rewrite super_run.
  destruct (br w) as [[[]|x] w']; [|done].
  unfold getitem. mred. rewrite Hf. simpl. rewrite Hc. simpl. rewrite He. mred.
  by rewrite <- !app_assoc.
Qed.

Lemma finalize_options_outcome s w lg t r σ' :
  should_cythonize s = true →
  finalize_options (State s w lg t) = (r, σ') →
  finalize_outcome sep mods pkg bf s w lg t r σ'.
Proof.
  intros Hf. rewrite finalize_options_true by done.
  destruct (build_cythonized.store_options _) as [[[]|x] σ1] eqn:Hs.
  - apply store_options_inv in Hs as (c & e & hc & he & Hc & He & ->).
    destruct pkg as [cy|] eqn:Hp.
    + destruct (cythonize cy files language_level exclude) as [names|x] eqn:Hcy.
      * erewrite cythonize_modules_Ok by done. rewrite super_run.
        destruct (bf _) as [r' w4] eqn:Hbf. intros [= <- <-].
        rewrite <- !(app_assoc t). cbn [heap app].
        eapply fo_configured; try done.
        rewrite <- Hbf. f_equal. unfold compiled. simpl. by rewrite !app_nil_r.
      * erewrite cythonize_modules_Raised by done. intros [= <- <-].
        rewrite <- !(app_assoc t). by eapply fo_cythonize_raised.
    + rewrite cythonize_modules_no_Cython. intros [= <- <-]. by eapply fo_no_Cython.
  - apply store_options_inv in Hs as (-> & ? & ? & ? & ? & ?).
    intros [= <- <-]. by apply fo_copy_raised.
Qed.

(** A configuration phase that returns normally went through every line. *)
Lemma finalize_options_Ok_inv s w lg t σ' :
  should_cythonize s = true →
  finalize_options (State s w lg t) = (Ok tt, σ') →
  ∃ c e hc he cy names w4,
    snap (heap w) (cmdclass (dist w)) c hc ∧
    snap (heap w ++ hc) (ext_modules (dist w)) e he ∧
    pkg = Some cy ∧
    cythonize cy files language_level exclude = Ok names ∧
    bf (compiled w (hc ++ he) names) = (Ok tt, w4) ∧
    σ' = State (snapshot_of s c e) w4 (lg ++ [(INFO, message cy)])
           (t ++ [EvSnapshot c e; EvCythonize files language_level exclude;
                  EvMutate (VRef (length (heap w ++ hc ++ he) + length names));
                  EvInherited Pfinalize_options]).
Proof.
  intros Hf. rewrite finalize_options_true by done.
  destruct (build_cythonized.store_options _) as [[[]|x] σ1] eqn:Hs; [|done].
  apply store_options_inv in Hs as (c & e & hc & he & Hc & He & ->).
  destruct pkg as [cy|]; [|by rewrite cythonize_modules_no_Cython].
  destruct (cythonize cy files language_level exclude) as [names|x] eqn:Hcy;
    [|by erewrite cythonize_modules_Raised].
  erewrite cythonize_modules_Ok by done. rewrite super_run.
  destruct (bf _) as [[[]|x] w4] eqn:Hbf; [|done].
  intros [= <-]. exists c, e, hc, he, cy, names, w4.
  split_and!; try done.
  - rewrite <- Hbf. f_equal. unfold compiled. simpl. by rewrite !app_nil_r.
  - simpl. by rewrite <- !app_assoc.
Qed.

Lemma snapshot_of_cmdclass s c e : stored_options (snapshot_of s c e) !! "cmdclass" = Some c.
Proof. unfold snapshot_of. simpl. by rewrite lookup_insert_eq. Qed.

Lemma snapshot_of_ext_modules s c e :
  stored_options (snapshot_of s c e) !! "ext_modules" = Some e.
Proof.
  unfold snapshot_of. simpl. rewrite lookup_insert_ne by done. by rewrite lookup_insert_eq.
Qed.

(** A whole invocation that returns normally. *)
Lemma invoke_Ok_inv s w lg t σ' :
  should_cythonize s = true →
  invoke (State s w lg t) = (Ok tt, σ') →
  ∃ c e hc he cy names w4 w5,
    snap (heap w) (cmdclass (dist w)) c hc ∧
    snap (heap w ++ hc) (ext_modules (dist w)) e he ∧
    pkg = Some cy ∧
    cythonize cy files language_level exclude = Ok names ∧
    bf (compiled w (hc ++ he) names) = (Ok tt, w4) ∧
    br w4 = (Ok tt, w5) ∧
    σ' = State (snapshot_of s c e) (World (Distribution c e) (heap w5))
           (lg ++ [(INFO, message cy)])
           (t ++ [EvSnapshot c e; EvCythonize files language_level exclude;
                  EvMutate (VRef (length (heap w ++ hc ++ he) + length names));
                  EvInherited Pfinalize_options; EvInherited Prun;
                  EvRestore Fcmdclass c; EvRestore Fext_modules e]).
Proof.
  intros Hf. unfold build_cythonized.invoke. unfold bind at 1.
  destruct (finalize_options _) as [[[]|x] σ1] eqn:Hfin; [|done].
  apply finalize_options_Ok_inv in Hfin
    as (c & e & hc & he & cy & names & w4 & Hc & He & Hp & Hcy & Hbf & ->); [|done].
  erewrite run_true;
    [|done|apply snapshot_of_cmdclass|apply snapshot_of_ext_modules].
  destruct (br w4) as [[[]|x] w5] eqn:Hbr; [|done].
  intros [= <-]. exists c, e, hc, he, cy, names, w4, w5.
  split_and!; try done. by rewrite <- !app_assoc.
Qed.
End methods.

(** ** The snapshot is out of reach of the inherited phases *)

Lemma copied_restored h v h' c : copied h v h' c → restored h v h' c.
Proof.
  unfold copied, restored. destruct (truthy h v); [|done].
  intros (l0 & o & l & -> & Hl0 & Hcp & -> & _ & Hl). simpl. rewrite Hl0, Hl.
  destruct o; [by apply bool_decide_eq_true..|done].
Qed.

Lemma restored_None_or_truthy h v h' v' :
  restored h v h' v' → v' = VNone ∨ truthy h' v' = true.
Proof.
  unfold restored. destruct (truthy h v) eqn:Ht; [|by left].
  destruct v as [|l], v' as [|l']; simpl; try done. intros Hs. right.
  simpl in Ht. destruct (h !! l) as [[d|xs|x]|], (h' !! l') as [[d'|xs'|x']|];
    try done; apply bool_decide_eq_true in Hs; by subst.
Qed.

Lemma extend_closed_isolated d h priv pub r :
  closed (World d h) →
  (∀ o l, o ∈ priv → refers o l → l < length h) →
  (∀ o l, o ∈ pub → refers o l →
     length h + length priv ≤ l < length h + length priv + length pub) →
  length h + length priv ≤ r < length h + length priv + length pub →
  let w3 := World (Distribution (cmdclass d) (VRef r)) (h ++ priv ++ pub) in
  closed w3 ∧ isolated (λ l, length h ≤ l < length h + length priv) w3.
Proof.
  intros [Hroot Hobj] Hpriv Hpub Hr w3.
  assert (Hlen : length (heap w3) = length h + length priv + length pub).
  { unfold w3. simpl. rewrite !length_app. lia. }
  assert (Hin : ∀ a o l, heap w3 !! a = Some o → refers o l →
            (a < length h ∧ l < length h) ∨
            (length h ≤ a < length h + length priv ∧ l < length h) ∨
            (length h + length priv ≤ a ∧
             length h + length priv ≤ l < length h + length priv + length pub)).
  { intros a o l Ha Ho. unfold w3 in Ha. simpl in Ha.
    apply lookup_app_Some in Ha as [Ha|[Hge Ha]].
    - left. split; [by eapply lookup_lt_Some|]. by eapply (Hobj a o l).
    - apply lookup_app_Some in Ha as [Ha|[Hge' Ha]].
      + right; left. apply lookup_lt_Some in Ha as Hlt. split; [lia|].
        eapply Hpriv; [|done]. by eapply list_elem_of_lookup_2.
      + right; right. split; [lia|].
        eapply Hpub; [|done]. by eapply list_elem_of_lookup_2. }
  split; [split|split].
  - intros l [Hl|Hl]; simpl in Hl.
    + rewrite Hlen. assert (l < length h) by (apply Hroot; by left). lia.
    + injection Hl as <-. lia.
  - intros a o l Ha Ho. rewrite Hlen. destruct (Hin a o l Ha Ho) as [?|[?|?]]; lia.
  - intros l Hl. split; [lia|]. intros [Hc|He]; simpl in *.
    + assert (l < length h) by (apply Hroot; by left). lia.
    + injection He as <-. lia.
  - intros a o l Ha Hna Hl Ho. destruct (Hin a o l Ha Ho) as [?|[?|?]]; lia.
Qed.

(** The two copies of a snapshot, in a closed heap. *)
Lemma snap_pair w c e hc he tail :
  closed w →
  snap (heap w) (cmdclass (dist w)) c hc →
  snap (heap w ++ hc) (ext_modules (dist w)) e he →
  (∀ o l, o ∈ hc ++ he → refers o l → l < length (heap w)) ∧
  (∀ l, c = VRef l ∨ e = VRef l →
     length (heap w) ≤ l < length (heap w) + length (hc ++ he)) ∧
  copied (heap w) (cmdclass (dist w)) (heap w ++ (hc ++ he) ++ tail) c ∧
  copied (heap w) (ext_modules (dist w)) (heap w ++ (hc ++ he) ++ tail) e.
Proof.
  intros [Hroot Hobj] Hc He. set (h := heap w) in *.
  assert (Ht : truthy (h ++ hc) (ext_modules (dist w)) = truthy h (ext_modules (dist w))).
  { destruct (ext_modules (dist w)) as [|l] eqn:E; [done|].
    apply truthy_app, Hroot. by right. }
  assert (Hlk : ∀ l, ext_modules (dist w) = VRef l → (h ++ hc) !! l = h !! l).
  { intros l E. apply lookup_app_l, Hroot. by right. }
  apply snap_inv in Hc as [(Hct & -> & ->)|(lc & oc & Ec & Hlc & Hcc & Hct & -> & ->)];
  apply snap_inv in He as [(Het & -> & ->)|(le & oe & Ee & Hle & Hce & Het & -> & ->)];
  rewrite Ht in Het; unfold copied; rewrite Hct, Het; simpl.
  - split_and!; try done.
    + intros o l Ho. by apply elem_of_nil in Ho.
    + intros l [?|?]; done.
  - rewrite (Hlk _ Ee) in Hle. rewrite app_nil_r in *. split_and!; try done.
    + intros o l Ho. apply list_elem_of_singleton in Ho as ->. eauto.
    + intros l [?|[= <-]]; [done|lia].
    + exists le, oe, (length h). split_and!; try done.
      by rewrite lookup_app_r, Nat.sub_diag by lia.
  - split_and!; try done.
    + intros o l Ho. apply list_elem_of_singleton in Ho as ->. eauto.
    + intros l [[= <-]|?]; [lia|done].
    + exists lc, oc, (length h). split_and!; try done.
      by rewrite lookup_app_r, Nat.sub_diag by lia.
  - rewrite (Hlk _ Ee) in Hle. split_and!.
    + intros o l Ho. apply elem_of_cons in Ho as [->|Ho]; [eauto|].
      apply list_elem_of_singleton in Ho as ->. eauto.
    + rewrite length_app. simpl. intros l [[= <-]|[= <-]]; lia.
    + exists lc, oc, (length h). split_and!; try done.
      by rewrite lookup_app_r, Nat.sub_diag by lia.
    + exists le, oe, (length (h ++ [oc])). split_and!; try done.
      * rewrite length_app. lia.
      * rewrite length_app. simpl.
        rewrite lookup_app_r by lia.
        by replace (length h + 1 - length h) with 1 by lia.
Qed.

Lemma copied_frame h v h1 h2 c :
  copied h v h1 c →
  (∀ l, c = VRef l → h2 !! l = h1 !! l) →
  copied h v h2 c.
Proof.
  unfold copied. destruct (truthy h v); [|done].
  intros (l0 & o & l & -> & Hl0 & Hcp & -> & Hge & Hl) Heq.
  exists l0, o, l. split_and!; try done. by rewrite Heq.
Qed.

Section restoration.
Variable sep : string.
Variable mods : list string.
Variable pkg : option cython.
Variable bf br : world → result unit * world.

Local Abbreviation invoke := (build_cythonized.invoke sep mods pkg bf br).

(** The heart of the restoration properties: after an invocation that
    returns normally, each field refers to the private copy made by the
    snapshot, whose contents nobody changed. *)
Lemma invoke_restores s w lg t σ' :
  should_cythonize s = true →
  closed w → well_behaved bf → well_behaved br →
  invoke (State s w lg t) = (Ok tt, σ') →
  closed (wld σ') ∧
  copied (heap w) (cmdclass (dist w)) (heap (wld σ')) (cmdclass (dist (wld σ'))) ∧
  copied (heap w) (ext_modules (dist w)) (heap (wld σ')) (ext_modules (dist (wld σ'))).
Proof.
  intros Hf Hcl Hwf Hwr Hinv.
  apply invoke_Ok_inv in Hinv
    as (c & e & hc & he & cy & names & w4 & w5 & Hc & He & _ & _ & Hbf & Hbr & ->);
    [|done].
  set (pub := (OOpaque <$> names) ++
              [OList (VRef <$> seq (length (heap w ++ hc ++ he)) (length names))]).
  destruct (snap_pair w c e hc he pub Hcl Hc He) as (Hpriv & HP & Hcc & Hce).
  assert (Hw3 : compiled w (hc ++ he) names =
            World (Distribution (cmdclass (dist w))
                     (VRef (length (heap w ++ hc ++ he) + length names)))
                  (heap w ++ (hc ++ he) ++ pub)).
  { unfold compiled, pub. by rewrite <- !app_assoc. }
  rewrite Hw3 in Hbf. clear Hw3.
  destruct w as [d h]. simpl in *.
  edestruct (extend_closed_isolated d h (hc ++ he) pub
               (length (h ++ hc ++ he) + length names))
    as [Hcl3 Hiso3]; [done|done| | |].
  { intros o l Ho Hr. unfold pub in *. rewrite !length_app, length_fmap in *. simpl.
    apply elem_of_app in Ho as [Ho|Ho].
    - apply list_elem_of_fmap in Ho as (x & -> & _). done.
    - apply list_elem_of_singleton in Ho as ->. simpl in Hr.
      apply list_elem_of_fmap in Hr as (i & [= <-] & Hi).
      apply elem_of_seq in Hi. lia. }
  { unfold pub. rewrite !length_app, length_fmap. simpl. lia. }
  destruct (Hwf _ _ _ Hbf) as [Hcl4 Hfr4].
  destruct (Hfr4 _ Hiso3) as [Hiso4 Heq4].
  destruct (Hwr _ _ _ Hbr) as [Hcl5 Hfr5].
  destruct (Hfr5 _ Hiso4) as [[Halloc5 Hsep5] Heq5].
  specialize (Hcl4 Hcl3). specialize (Hcl5 Hcl4).
  split_and!.
  - destruct Hcl5 as [_ Hobj5]. split; [|done]. simpl.
    intros l [Hl|Hl]; simpl in Hl; apply Halloc5, HP; auto.
  - eapply copied_frame; [exact Hcc|]. intros l ->.
    rewrite Heq5, Heq4 by (apply HP; auto). done.
  - eapply copied_frame; [exact Hce|]. intros l ->.
    rewrite Heq5, Heq4 by (apply HP; auto). done.
Qed.
End restoration.

(** ** The concrete builds meet the assumptions *)

Lemma refers_singleton_dict k v l : refers (ODict {[k := v]}) l → v = VRef l.
Proof. intros [k' Hk]. apply lookup_singleton_Some in Hk. tauto. Qed.

Lemma closed_world0 : closed Scenario.world0.
Proof.
  split.
  - intros l [[= <-]|[=]]. simpl. lia.
  - intros [|[|a]] o l; simpl; intros [= <-]; simpl; [done|].
    intros [= <-]%refers_singleton_dict. lia.
Qed.

Lemma closed_world_ext : closed Scenario.world_ext.
Proof.
  split.
  - intros l [[= <-]|[= <-]]; simpl; lia.
  - intros [|[|[|[|a]]]] o l; simpl; intros [= <-]; simpl; try done.
    + intros [= <-]%refers_singleton_dict. lia.
    + intros [= <-]%list_elem_of_singleton. lia.
Qed.

Lemma closed_world_empty : closed Scenario.world_empty.
Proof.
  split.
  - intros l [[= <-]|[= <-]]; simpl; lia.
  - intros [|[|a]] o l; simpl; intros [= <-]; simpl.
    + intros [k Hk]. by rewrite lookup_empty in Hk.
    + intros Hl. by apply elem_of_nil in Hl.
Qed.

Lemma well_behaved_inherited_ok : well_behaved Scenario.inherited_ok.
Proof. intros w r w' [= <- <-]. split; [done|]. intros P HP. by split. Qed.

Lemma well_behaved_inherited_fails : well_behaved Scenario.inherited_fails.
Proof. intros w r w' [= <- <-]. split; [done|]. intros P HP. by split. Qed.

Lemma well_behaved_inherited_caching : well_behaved Scenario.inherited_caching.
Proof.
  intros w r w'. unfold Scenario.inherited_caching.
  destruct (cmdclass (dist w)) as [|lc] eqn:Ec;
    [intros [= <- <-]; split; [done|]; intros P HP; by split|].
  destruct (heap w !! lc) as [[d|xs|x]|] eqn:Hlc;
    try (intros [= <- <-]; split; [done|]; intros P HP; by split).
  intros [= <- <-].
  assert (Hlt : lc < length (heap w)) by (by eapply lookup_lt_Some).
  assert (Hlk : ∀ a o,
            (<[lc := ODict (<["build_py" := VRef (length (heap w))]> d)]> (heap w)
               ++ [OOpaque "class build_py"]) !! a = Some o →
            (a = lc ∧ o = ODict (<["build_py" := VRef (length (heap w))]> d)) ∨
            (a ≠ lc ∧ heap w !! a = Some o) ∨
            (a = length (heap w) ∧ o = OOpaque "class build_py")).
  { intros a o Ha. apply lookup_app_Some in Ha as [Ha|[Hge Ha]].
    - destruct (decide (a = lc)) as [->|Hne].
      + rewrite list_lookup_insert_eq in Ha by done. left. by injection Ha as <-.
      + rewrite list_lookup_insert_ne in Ha by done. right; left. done.
    - rewrite length_insert in *. apply list_lookup_singleton_Some in Ha as [Ha <-].
      right; right. split; [lia|done]. }
  assert (Hrf : ∀ l, refers (ODict (<["build_py" := VRef (length (heap w))]> d)) l →
            l = length (heap w) ∨ refers (ODict d) l).
  { intros l [k Hk]. apply lookup_insert_Some in Hk as [[_ [= <-]]|[_ Hk]];
      [by left|right; by exists k]. }
  split.
  - intros [Hroot Hobj]. split; simpl; rewrite length_app, length_insert; simpl.
    + intros l Hl. specialize (Hroot l Hl). lia.
    + intros a o l Ha Hr. destruct (Hlk a o Ha) as [[-> ->]|[[Hne Ha']|[-> ->]]].
      * apply Hrf in Hr as [->|Hr]; [lia|]. specialize (Hobj lc _ l Hlc Hr). lia.
      * specialize (Hobj a o l Ha' Hr). lia.
      * done.
  - intros P [Halloc Hsep]. split; [split|].
    + intros l Hl. destruct (Halloc l Hl) as [Hl1 Hl2]. split; [|done].
      simpl. rewrite length_app, length_insert. lia.
    + simpl. intros a o l Ha Hna Hl Hr.
      destruct (Hlk a o Ha) as [[-> ->]|[[Hne Ha']|[-> ->]]].
      * apply Hrf in Hr as [->|Hr].
        -- destruct (Halloc _ Hl). lia.
        -- by eapply (Hsep lc).
      * by eapply (Hsep a).
      * done.
    + intros l Hl. simpl. destruct (Halloc l Hl) as [Hl1 Hl2].
      assert (l ≠ lc) by (intros ->; apply Hl2; by left).
      rewrite lookup_app_l by (rewrite length_insert; lia).
      by rewrite list_lookup_insert_ne.
Qed.

(** ** What the phases leave alone *)

Lemma run_self br σ : self (build_cythonized.run br σ).2 = self σ.
Proof.
  destruct σ as [s w lg t]. unfold build_cythonized.run. unfold bind at 1.
  rewrite super_run. destruct (br w) as [[[]|x] w']; [|done].
  unfold getitem. mred. destruct (should_cythonize s); [|done]. simpl.
  destruct (stored_options s !! "cmdclass"); [|done]. simpl.
  destruct (stored_options s !! "ext_modules"); done.
Qed.

Lemma finalize_options_flag sep mods pkg bf σ :
  should_cythonize (self (build_cythonized.finalize_options sep mods pkg bf σ).2)
  = should_cythonize (self σ).
Proof.
  destruct σ as [s w lg t]. simpl.
  destruct (build_cythonized.finalize_options sep mods pkg bf _) as [r σ'] eqn:Hfin.
  destruct (should_cythonize s) eqn:Hf.
  - apply finalize_options_outcome in Hfin; [|done].
    destruct Hfin; simpl; congruence.
  - rewrite finalize_options_false, super_run in Hfin by done.
    destruct (bf w) as [r' w']. injection Hfin as <- <-. done.
Qed.

Lemma new_events_app s w lg t s' w' lg' evs :
  new_events (State s w lg t) (State s' w' lg' (t ++ evs)) = evs.
Proof. unfold new_events. simpl. by rewrite drop_app_length. Qed.

(** ** The feature flag *)

(** C6: the flag is resolved once, when the command is constructed, by
    comparing the environment variable CYTHONIZE_NLTK with the string
    "true" for exact equality; every other value, and an unset variable,
    gives false.  The same test decides [setup_reqs] (lines 52-55), and
    neither phase changes the flag afterwards. *)
Theorem C6_flag_is_exact_match_with_true (environ : gmap string string) :
  (should_cythonize (build_cythonized.__init__ environ) = true
     ↔ getenv environ "CYTHONIZE_NLTK" = Some "true") ∧
  (∀ v, v ≠ "true" →
     should_cythonize
       (build_cythonized.__init__ (<["CYTHONIZE_NLTK" := v]> environ)) = false) ∧
  should_cythonize
    (build_cythonized.__init__ (delete "CYTHONIZE_NLTK" environ)) = false ∧
  should_cythonize (build_cythonized.__init__ {["CYTHONIZE_NLTK" := "True"]}) = false ∧
  should_cythonize (build_cythonized.__init__ {["CYTHONIZE_NLTK" := "1"]}) = false ∧
  should_cythonize (build_cythonized.__init__ {["CYTHONIZE_NLTK" := "yes"]}) = false ∧
  should_cythonize (build_cythonized.__init__ ∅) = false ∧
  setup_reqs environ =
    (if should_cythonize (build_cythonized.__init__ environ)
     then ["Cython >= 0.28.5"] else []) ∧
  (∀ sep mods pkg bf br σ,
     should_cythonize (self (build_cythonized.finalize_options sep mods pkg bf σ).2)
       = should_cythonize (self σ) ∧
     should_cythonize (self (build_cythonized.run br σ).2) = should_cythonize (self σ)).
Proof.
  unfold build_cythonized.__init__, setup_reqs, getenv. simpl. split_and!.
  - apply bool_decide_eq_true.
  - intros v Hv. apply bool_decide_eq_false. rewrite lookup_insert_eq. congruence.
  - apply bool_decide_eq_false. by rewrite lookup_delete_eq.
  - done.
  - done.
  - done.
  - done.
  - by destruct (bool_decide _).
  - intros sep mods pkg bf br σ. split.
    + apply finalize_options_flag.
    + by rewrite run_self.
Qed.

(** ** Errors of the compiler collaborator *)

(** C10: when the flag is set and the compiler collaborator fails during
    the configuration phase (Cython cannot be imported, or [cythonize]
    raises), the phase ends with an exception, the two fields of the
    distribution still hold the values they held before, every object that
    existed before is unchanged, the step assigned nothing and the
    inherited configuration was not run. *)
Theorem C10_compiler_error_leaves_description_unmutated
    (sep : string) (mods : list string) (pkg : option cython)
    (bf : world → result unit * world)
    (s : command) (w : world) (lg : list (nat * string)) (t : list event)
    (r : result unit) (σ' : state) :
  should_cythonize s = true →
  (pkg = None ∨
   ∃ cy x, pkg = Some cy ∧
           cythonize cy (build_cythonized.files sep mods) language_level exclude
           = Raised x) →
  build_cythonized.finalize_options sep mods pkg bf (State s w lg t) = (r, σ') →
  (∃ x, r = Raised x) ∧
  dist (wld σ') = dist w ∧
  heap w `prefix_of` heap (wld σ') ∧
  count is_mutation (new_events (State s w lg t) σ') = 0 ∧
  EvInherited Pfinalize_options ∉ new_events (State s w lg t) σ'.
Proof.
  intros Hf Hfail Hfin. apply finalize_options_outcome in Hfin; [|done].
  destruct Hfin as [σ' Hs Ht Hlg Hd Hh|c e hc he Hc He Hp|c e hc he cy x Hc He Hp Hcy
                   |c e hc he cy names r w4 Hc He Hp Hcy Hbf].
  - destruct σ' as [s' w' lg' t']. simpl in *. subst.
    rewrite <- (app_nil_r t) at 2 4. rewrite new_events_app.
    split_and!; eauto. apply not_elem_of_nil.
  - rewrite new_events_app. simpl. split_and!; eauto.
    + by apply prefix_app_r.
    + by intros [=]%list_elem_of_singleton.
  - rewrite new_events_app. simpl. split_and!; eauto.
    + by apply prefix_app_r.
    + intros Hin. apply elem_of_cons in Hin as [[=]|Hin].
      by apply list_elem_of_singleton in Hin.
  - exfalso. destruct Hfail as [->|(cy' & x & -> & Hx)]; [done|].
    injection Hp as <-. congruence.
Qed.

(** C5 (as the code has it): when the flag is set, the snapshot succeeded
    and [cythonize] raises [x], for instance for a selector naming a module
    that does not exist, the configuration phase ends with that very
    exception; the distribution is not changed and the inherited
    configuration is not run.  The progress message has been handed to the
    logger by then, exactly once: line 107 announces before line 108
    calls the collaborator. *)
Theorem C5_collaborator_error_propagates_after_the_message
    (sep : string) (mods : list string) (bf : world → result unit * world)
    (cy : cython) (x : exn)
    (s : command) (w : world) (lg : list (nat * string)) (t : list event)
    (σ1 : state) :
  should_cythonize s = true →
  build_cythonized.store_options (State s w lg t) = (Ok tt, σ1) →
  cythonize cy (build_cythonized.files sep mods) language_level exclude = Raised x →
  build_cythonized.finalize_options sep mods (Some cy) bf (State s w lg t) =
    (Raised x,
     State (self σ1) (wld σ1)
           (lg ++ [(INFO, "Compiling " +:+ PyStr.fmt_d (length mods)
                            +:+ " modules using Cython " +:+ __version__ cy)])
           (trace σ1 ++
              [EvCythonize (build_cythonized.files sep mods) language_level exclude])) ∧
  dist (wld σ1) = dist w ∧
  announced σ1 = lg.
Proof.
  intros Hf Hs Hcy. rewrite finalize_options_true, Hs by done.
  apply store_options_inv in Hs as (c & e & hc & he & Hc & He & ->).
  erewrite cythonize_modules_Raised by done.
  unfold build_cythonized.files at 1. rewrite length_fmap. done.
Qed.

(** ** The snapshot *)

Lemma finalize_options_self_after_snapshot sep mods pkg bf s w lg t σ1 :
  should_cythonize s = true →
  build_cythonized.store_options (State s w lg t) = (Ok tt, σ1) →
  self (build_cythonized.finalize_options sep mods pkg bf (State s w lg t)).2 = self σ1.
Proof.
  intros Hf Hs. rewrite finalize_options_true, Hs by done.
  destruct σ1 as [s1 w1 lg1 t1].
  destruct pkg as [cy|]; [|by rewrite cythonize_modules_no_Cython].
  destruct (cythonize cy (build_cythonized.files sep mods) language_level exclude)
    as [names|x] eqn:Hcy.
  - erewrite cythonize_modules_Ok by done. rewrite super_run. by destruct (bf _).
  - by erewrite cythonize_modules_Raised.
Qed.

(** C3 (as the code has it): when the flag is set and the snapshot is
    taken, the entry stored for a field is [None] whenever the field is
    false in Python's sense, that is, when it is [None] or an empty
    collection; only a non-empty collection is stored as a new object with
    the same items.  The entries stay as stored until the configuration
    phase ends, however it ends. *)
Theorem C3_snapshot_stores_None_for_missing_or_empty
    (sep : string) (mods : list string) (pkg : option cython)
    (bf : world → result unit * world)
    (s : command) (w : world) (lg : list (nat * string)) (t : list event)
    (σ1 : state) :
  should_cythonize s = true →
  closed w →
  build_cythonized.store_options (State s w lg t) = (Ok tt, σ1) →
  ∃ c e,
    stored_options (self σ1)
      = <["cmdclass" := c]> (<["ext_modules" := e]> (stored_options s)) ∧
    stored_options
      (self (build_cythonized.finalize_options sep mods pkg bf (State s w lg t)).2)
      = stored_options (self σ1) ∧
    (truthy (heap w) (cmdclass (dist w)) = false → c = VNone) ∧
    (truthy (heap w) (ext_modules (dist w)) = false → e = VNone) ∧
    copied (heap w) (cmdclass (dist w)) (heap (wld σ1)) c ∧
    copied (heap w) (ext_modules (dist w)) (heap (wld σ1)) e.
Proof.
  intros Hf Hcl Hs.
  pose proof (finalize_options_self_after_snapshot sep mods pkg bf _ _ _ _ _ Hf Hs) as Hself.
  apply store_options_inv in Hs as (c & e & hc & he & Hc & He & ->).
  destruct (snap_pair w c e hc he [] Hcl Hc He) as (_ & _ & Hcc & Hce).
  rewrite app_nil_r, app_assoc in Hcc, Hce.
  exists c, e. simpl. split_and!; try done.
  - by rewrite Hself.
  - intros Ht. unfold copied in Hcc. by rewrite Ht in Hcc.
  - intros Ht. unfold copied in Hce. by rewrite Ht in Hce.
  - by rewrite <- app_assoc in Hcc.
  - by rewrite <- app_assoc in Hce.
Qed.

(** ** Selector resolution and the progress message *)

(** C4 (as the code has it): the step turns each selector into exactly one
    path pattern, by replacing every "." with the path separator and
    appending ".py"; it expands no wildcard and looks at no file.  The list
    of patterns goes to [cythonize] with language level 3 and the exclusion
    pattern for package initializers, and the progress message reports the
    number of selectors.  For the selectors "pkgA.mod1" and "pkgB.*" the
    list passed is "pkgA/mod1.py", "pkgB/*.py" and the count is 2. *)
Theorem C4_selectors_become_patterns
    (sep : string) (mods : list string) (bf : world → result unit * world)
    (cy : cython)
    (s : command) (w : world) (lg : list (nat * string)) (t : list event)
    (σ1 : state) (r : result unit) (σ' : state) :
  should_cythonize s = true →
  build_cythonized.store_options (State s w lg t) = (Ok tt, σ1) →
  build_cythonized.finalize_options sep mods (Some cy) bf (State s w lg t) = (r, σ') →
  let patterns := (λ name, PyStr.replace name "." sep +:+ ".py") <$> mods in
  length patterns = length mods ∧
  (∃ c e rest,
     new_events (State s w lg t) σ'
     = EvSnapshot c e :: EvCythonize patterns 3 ["**/__init__.py"] :: rest) ∧
  announced σ' =
    lg ++ [(INFO, "Compiling " +:+ PyStr.fmt_d (length mods)
                   +:+ " modules using Cython " +:+ __version__ cy)] ∧
  build_cythonized.files "/" Scenario.selectors_AB = ["pkgA/mod1.py"; "pkgB/*.py"] ∧
  build_cythonized.progress_message
    (length (build_cythonized.files "/" Scenario.selectors_AB)) "0.29.14"
  = "Compiling 2 modules using Cython 0.29.14".
Proof.
  intros Hf Hs Hfin patterns.
  rewrite finalize_options_true, Hs in Hfin by done.
  apply store_options_inv in Hs as (c & e & hc & he & Hc & He & ->).
  fold (build_cythonized.files sep mods) in patterns.
  assert (Hlen : length patterns = length mods)
    by (unfold patterns, build_cythonized.files; by rewrite length_fmap).
  destruct (cythonize cy patterns language_level exclude) as [names|x] eqn:Hcy.
  - erewrite cythonize_modules_Ok in Hfin by done. rewrite super_run in Hfin.
    destruct (bf _) as [r' w4]. injection Hfin as <- <-.
    rewrite <- !(app_assoc t), new_events_app. fold patterns. rewrite Hlen.
    split_and!; try done. by eexists _, _, _.
  - erewrite cythonize_modules_Raised in Hfin by done. injection Hfin as <- <-.
    rewrite <- !(app_assoc t), new_events_app. fold patterns. rewrite Hlen.
    split_and!; try done. by eexists _, _, _.
Qed.

(** The theorem at a build whose selector names no module. *)
Lemma C10_witness :
  let σ0 := Scenario.start Scenario.environ_on Scenario.world0 in
  let out := build_cythonized.finalize_options "/" Scenario.selectors_missing
               (Some Scenario.Cython_missing) Scenario.inherited_ok σ0 in
  (∃ x, out.1 = Raised x) ∧
  dist (wld out.2) = dist Scenario.world0 ∧
  heap Scenario.world0 `prefix_of` heap (wld out.2) ∧
  count is_mutation (new_events σ0 out.2) = 0 ∧
  EvInherited Pfinalize_options ∉ new_events σ0 out.2.
Proof.
  apply (C10_compiler_error_leaves_description_unmutated
           "/" Scenario.selectors_missing (Some Scenario.Cython_missing)
           Scenario.inherited_ok
           (build_cythonized.__init__ Scenario.environ_on) Scenario.world0 [] []).
  - reflexivity.
  - right. exists Scenario.Cython_missing, Scenario.no_such_file. split; reflexivity.
  - vm_compute. reflexivity.
Defined.

(** With a selector that names no module, the exception of the collaborator
    ends the phase, and the progress message is in the log. *)
Lemma C5_counterexample :
  let σ0 := Scenario.start Scenario.environ_on Scenario.world0 in
  let out := build_cythonized.finalize_options "/" Scenario.selectors_missing
               (Some Scenario.Cython_missing) Scenario.inherited_ok σ0 in
  should_cythonize (self σ0) = true ∧
  out.1 = Raised Scenario.no_such_file ∧
  announced σ0 = [] ∧
  announced out.2 = [(INFO, "Compiling 1 modules using Cython 0.29.14")].
Proof. vm_compute. done. Qed.

(** The theorem at the same build. *)
Lemma C5_witness :
  let σ0 := Scenario.start Scenario.environ_on Scenario.world0 in
  let σ1 := (build_cythonized.store_options σ0).2 in
  build_cythonized.finalize_options "/" Scenario.selectors_missing
    (Some Scenario.Cython_missing) Scenario.inherited_ok σ0 =
    (Raised Scenario.no_such_file,
     State (self σ1) (wld σ1)
           ([] ++ [(INFO, "Compiling " +:+ PyStr.fmt_d (length Scenario.selectors_missing)
                            +:+ " modules using Cython "
                            +:+ __version__ Scenario.Cython_missing)])
           (trace σ1 ++
              [EvCythonize (build_cythonized.files "/" Scenario.selectors_missing)
                 language_level exclude])) ∧
  dist (wld σ1) = dist Scenario.world0 ∧
  announced σ1 = [].
Proof.
  apply (C5_collaborator_error_propagates_after_the_message
           "/" Scenario.selectors_missing Scenario.inherited_ok
           Scenario.Cython_missing Scenario.no_such_file
           (build_cythonized.__init__ Scenario.environ_on) Scenario.world0 [] []).
  - reflexivity.
  - vm_compute. reflexivity.
  - reflexivity.
Defined.

(** Two empty collections are stored as two [None]s. *)
Lemma C3_counterexample :
  let σ0 := Scenario.start Scenario.environ_on Scenario.world_empty in
  let σ' := (build_cythonized.finalize_options "/" MODULES_TO_COMPILE
               (Some Scenario.Cython_ok) Scenario.inherited_ok σ0).2 in
  should_cythonize (self σ0) = true ∧
  cmdclass (dist (wld σ0)) = VRef 0 ∧ heap (wld σ0) !! 0 = Some (ODict ∅) ∧
  ext_modules (dist (wld σ0)) = VRef 1 ∧ heap (wld σ0) !! 1 = Some (OList []) ∧
  stored_options (self σ') !! "cmdclass" = Some VNone ∧
  stored_options (self σ') !! "ext_modules" = Some VNone.
Proof. vm_compute. done. Qed.

(** The theorem at a distribution that has a command table and an
    extension list. *)
Lemma C3_witness :
  let σ0 := Scenario.start Scenario.environ_on Scenario.world_ext in
  let σ1 := (build_cythonized.store_options σ0).2 in
  ∃ c e,
    stored_options (self σ1)
      = <["cmdclass" := c]> (<["ext_modules" := e]> (stored_options (self σ0))) ∧
    stored_options
      (self (build_cythonized.finalize_options "/" MODULES_TO_COMPILE
               (Some Scenario.Cython_ok) Scenario.inherited_ok σ0).2)
      = stored_options (self σ1) ∧
    (truthy (heap Scenario.world_ext) (cmdclass (dist Scenario.world_ext)) = false
       → c = VNone) ∧
    (truthy (heap Scenario.world_ext) (ext_modules (dist Scenario.world_ext)) = false
       → e = VNone) ∧
    copied (heap Scenario.world_ext) (cmdclass (dist Scenario.world_ext))
           (heap (wld σ1)) c ∧
    copied (heap Scenario.world_ext) (ext_modules (dist Scenario.world_ext))
           (heap (wld σ1)) e.
Proof.
  apply (C3_snapshot_stores_None_for_missing_or_empty
           "/" MODULES_TO_COMPILE (Some Scenario.Cython_ok) Scenario.inherited_ok
           (build_cythonized.__init__ Scenario.environ_on) Scenario.world_ext [] []).
  - reflexivity.
  - exact closed_world_ext.
  - vm_compute. reflexivity.
Defined.

(** In the scenario of the specification the collaborator receives the
    wildcard pattern, not the files it stands for. *)
Lemma C4_counterexample :
  let σ0 := Scenario.start Scenario.environ_on Scenario.world0 in
  let σ' := (build_cythonized.finalize_options "/" Scenario.selectors_AB
               (Some Scenario.Cython_AB) Scenario.inherited_ok σ0).2 in
  should_cythonize (self σ0) = true ∧
  EvCythonize ["pkgA/mod1.py"; "pkgB/*.py"] 3 ["**/__init__.py"] ∈ trace σ' ∧
  (∀ level excl, EvCythonize ["pkgA/mod1.py"; "pkgB/mod2.py"] level excl ∉ trace σ').
Proof.
  split_and!.
  - reflexivity.
  - vm_compute. apply list_elem_of_In. simpl. auto.
  - intros level excl Hin. apply list_elem_of_In in Hin. vm_compute in Hin.
    repeat (destruct Hin as [Hin|Hin]; [discriminate Hin|]). done.
Qed.

(** The theorem at the scenario of the specification. *)
Lemma C4_witness :
  let σ0 := Scenario.start Scenario.environ_on Scenario.world0 in
  let out := build_cythonized.finalize_options "/" Scenario.selectors_AB
               (Some Scenario.Cython_AB) Scenario.inherited_ok σ0 in
  let patterns := (λ name, PyStr.replace name "." "/" +:+ ".py") <$> Scenario.selectors_AB in
  length patterns = length Scenario.selectors_AB ∧
  (∃ c e rest,
     new_events σ0 out.2
     = EvSnapshot c e :: EvCythonize patterns 3 ["**/__init__.py"] :: rest) ∧
  announced out.2 =
    [] ++ [(INFO, "Compiling " +:+ PyStr.fmt_d (length Scenario.selectors_AB)
                   +:+ " modules using Cython " +:+ __version__ Scenario.Cython_AB)] ∧
  build_cythonized.files "/" Scenario.selectors_AB = ["pkgA/mod1.py"; "pkgB/*.py"] ∧
  build_cythonized.progress_message
    (length (build_cythonized.files "/" Scenario.selectors_AB)) "0.29.14"
  = "Compiling 2 modules using Cython 0.29.14".
Proof.
  intros σ0 out.
  apply (C4_selectors_become_patterns
           "/" Scenario.selectors_AB Scenario.inherited_ok Scenario.Cython_AB
           (build_cythonized.__init__ Scenario.environ_on) Scenario.world0 [] []
           (build_cythonized.store_options σ0).2 out.1 out.2).
  - reflexivity.
  - vm_compute. reflexivity.
  - vm_compute. reflexivity.
Defined.

(** ** The order of events *)

(** Every invocation of a command whose flag is set leaves a prefix of the
    full trace: the whole of it when it returns normally, at most its
    first five events (none of them a write-back) when it raises. *)
Lemma invoke_trace sep mods pkg bf br s w lg t r σ' :
  should_cythonize s = true →
  build_cythonized.invoke sep mods pkg bf br (State s w lg t) = (r, σ') →
  ∃ c e v n,
    new_events (State s w lg t) σ'
      = take n (full_trace (build_cythonized.files sep mods) c e v) ∧
    match r with
    | Ok _ => n = 7 ∧ c = cmdclass (dist (wld σ')) ∧ e = ext_modules (dist (wld σ'))
    | Raised _ => n ≤ 5
    end.
Proof.
  intros Hf. unfold build_cythonized.invoke. unfold bind at 1.
  destruct (build_cythonized.finalize_options _ _ _ _ _) as [r1 σ1] eqn:Hfin.
  apply finalize_options_outcome in Hfin; [|done].
  destruct Hfin as [σ1 Hs Ht Hlg Hd Hh|c e hc he Hc He Hp|c e hc he cy x Hc He Hp Hcy
                   |c e hc he cy names r1 w4 Hc He Hp Hcy Hbf].
  - intros [= <- <-]. destruct σ1 as [s1 w1 lg1 t1]. simpl in *. subst.
    exists VNone, VNone, VNone, 0. rewrite <- (app_nil_r t) at 2.
    rewrite new_events_app. split; [done|lia].
  - intros [= <- <-]. exists c, e, VNone, 1. rewrite new_events_app. split; [done|lia].
  - intros [= <- <-]. exists c, e, VNone, 2. rewrite new_events_app. split; [done|lia].
  - destruct r1 as [[]|x].
    + erewrite run_true; [|done|apply snapshot_of_cmdclass|apply snapshot_of_ext_modules].
      destruct (br w4) as [[[]|x] w5]; intros [= <- <-];
        rewrite <- !(app_assoc t), new_events_app.
      * eexists c, e, _, 7. split; [done|]. simpl. done.
      * eexists c, e, _, 5. split; [done|lia].
    + intros [= <- <-]. rewrite new_events_app.
      eexists c, e, _, 4. split; [done|lia].
Qed.

(** C9 (as the code has it): in every invocation of a command whose flag
    is set, however it ends, the step assigns to the distribution only
    after it has taken the snapshot.  When the invocation returns normally
    the write-back of each field happens exactly once, right after the
    inherited execution; when the invocation raises (in the configuration
    phase or in the inherited execution) no write-back happens at all. *)
Theorem C9_snapshot_first_and_write_back_once_on_normal_return
    (sep : string) (mods : list string) (pkg : option cython)
    (bf br : world → result unit * world)
    (s : command) (w : world) (lg : list (nat * string)) (t : list event)
    (r : result unit) (σ' : state) :
  should_cythonize s = true →
  build_cythonized.invoke sep mods pkg bf br (State s w lg t) = (r, σ') →
  let evs := new_events (State s w lg t) σ' in
  snapshot_first false evs = true ∧
  match r with
  | Ok _ =>
      count (is_restore Fcmdclass) evs = 1 ∧
      count (is_restore Fext_modules) evs = 1 ∧
      ∃ pre c e,
        evs = pre ++ [EvInherited Prun; EvRestore Fcmdclass c; EvRestore Fext_modules e] ∧
        count (is_restore Fcmdclass) pre = 0 ∧
        count (is_restore Fext_modules) pre = 0 ∧
        count is_snapshot pre = 1
  | Raised _ =>
      count (is_restore Fcmdclass) evs = 0 ∧
      count (is_restore Fext_modules) evs = 0
  end.
Proof.
  intros Hf Hinv evs.
  destruct (invoke_trace _ _ _ _ _ _ _ _ _ _ _ Hf Hinv) as (c & e & v & n & Hevs & Hn).
  unfold evs. rewrite Hevs. clear Hevs evs Hinv.
  destruct r as [[]|x].
  - destruct Hn as (-> & _ & _). split_and!; try done.
    exists [EvSnapshot c e;
            EvCythonize (build_cythonized.files sep mods) language_level exclude;
            EvMutate v; EvInherited Pfinalize_options], c, e.
    done.
  - do 6 (destruct n as [|n]; [done|]). lia.
Qed.

(** When the inherited execution fails, nothing is written back. *)
Lemma C9_counterexample :
  let σ0 := Scenario.start Scenario.environ_on Scenario.world0 in
  let out := build_cythonized.invoke "/" MODULES_TO_COMPILE (Some Scenario.Cython_ok)
               Scenario.inherited_ok Scenario.inherited_fails σ0 in
  should_cythonize (self σ0) = true ∧
  out.1 = Raised Scenario.toolchain_error ∧
  EvInherited Prun ∈ new_events σ0 out.2 ∧
  count (is_restore Fcmdclass) (new_events σ0 out.2) = 0 ∧
  count (is_restore Fext_modules) (new_events σ0 out.2) = 0.
Proof.
  split_and!; try (vm_compute; reflexivity).
  vm_compute. apply list_elem_of_In. simpl. auto 10.
Qed.

(** The theorem at a build that returns normally, with an inherited
    execution that changes the command table in place. *)
Lemma C9_witness :
  let σ0 := Scenario.start Scenario.environ_on Scenario.world0 in
  let out := build_cythonized.invoke "/" MODULES_TO_COMPILE (Some Scenario.Cython_ok)
               Scenario.inherited_ok Scenario.inherited_caching σ0 in
  let evs := new_events σ0 out.2 in
  snapshot_first false evs = true ∧
  count (is_restore Fcmdclass) evs = 1 ∧
  count (is_restore Fext_modules) evs = 1 ∧
  ∃ pre c e,
    evs = pre ++ [EvInherited Prun; EvRestore Fcmdclass c; EvRestore Fext_modules e] ∧
    count (is_restore Fcmdclass) pre = 0 ∧
    count (is_restore Fext_modules) pre = 0 ∧
    count is_snapshot pre = 1.
Proof.
  intros σ0 out.
  apply (C9_snapshot_first_and_write_back_once_on_normal_return
           "/" MODULES_TO_COMPILE (Some Scenario.Cython_ok)
           Scenario.inherited_ok Scenario.inherited_caching
           (build_cythonized.__init__ Scenario.environ_on) Scenario.world0 [] []
           (Ok tt) out.2).
  - reflexivity.
  - vm_compute. reflexivity.
Defined.

(** ** The flag is not set *)

(** C7 (as the code has it): when the flag is false the invocation is the
    inherited configuration followed by the inherited execution and nothing
    else: its result and the world it leaves are theirs, the command
    object is untouched (no snapshot is stored), the step itself announces
    nothing, and it records no action of its own.  The two fields of the
    distribution are therefore what the inherited phases leave: by value
    what they were before whenever the inherited phases leave them so. *)
Theorem C7_flag_off_is_the_inherited_behaviour
    (sep : string) (mods : list string) (pkg : option cython)
    (bf br : world → result unit * world)
    (s : command) (w : world) (lg : list (nat * string)) (t : list event) :
  should_cythonize s = false →
  let out := build_cythonized.invoke sep mods pkg bf br (State s w lg t) in
  (out.1, wld out.2) = inherited_only bf br w ∧
  self out.2 = s ∧
  announced out.2 = lg ∧
  (∀ ev, ev ∈ new_events (State s w lg t) out.2 → ∃ p, ev = EvInherited p) ∧
  count is_snapshot (new_events (State s w lg t) out.2) = 0 ∧
  count is_mutation (new_events (State s w lg t) out.2) = 0 ∧
  (same_description w (inherited_only bf br w).2 = true →
   same_description w (wld out.2) = true).
Proof.
  intros Hf out.
  assert (Hout : ∃ evs, out = ((inherited_only bf br w).1,
                               State s (inherited_only bf br w).2 lg (t ++ evs)) ∧
                        (evs = [EvInherited Pfinalize_options] ∨
                         evs = [EvInherited Pfinalize_options; EvInherited Prun])).
  { unfold out, build_cythonized.invoke, inherited_only. unfold bind at 1.
    rewrite finalize_options_false, super_run by done.
    destruct (bf w) as [[[]|x] w1]; [|eauto].
    rewrite run_false, super_run by done.
    destruct (br w1) as [r w2]. rewrite <- app_assoc. eauto. }
  clearbody out. destruct Hout as (evs & -> & Hevs). cbn [fst snd].
  rewrite new_events_app. simpl.
  split_and!; try done.
  - by destruct (inherited_only bf br w).
  - intros ev Hev. destruct Hevs as [-> | ->].
    + apply list_elem_of_singleton in Hev. eauto.
    + apply elem_of_cons in Hev as [->|Hev]; [eauto|].
      apply list_elem_of_singleton in Hev. eauto.
  - by destruct Hevs as [-> | ->].
  - by destruct Hevs as [-> | ->].
Qed.

(** The theorem at a build with the variable unset. *)
Lemma C7_witness :
  let σ0 := Scenario.start ∅ Scenario.world0 in
  let out := build_cythonized.invoke "/" MODULES_TO_COMPILE (Some Scenario.Cython_ok)
               Scenario.inherited_ok Scenario.inherited_ok σ0 in
  (out.1, wld out.2) = inherited_only Scenario.inherited_ok Scenario.inherited_ok
                         Scenario.world0 ∧
  self out.2 = build_cythonized.__init__ ∅ ∧
  announced out.2 = [] ∧
  (∀ ev, ev ∈ new_events σ0 out.2 → ∃ p, ev = EvInherited p) ∧
  count is_snapshot (new_events σ0 out.2) = 0 ∧
  count is_mutation (new_events σ0 out.2) = 0 ∧
  (same_description Scenario.world0
     (inherited_only Scenario.inherited_ok Scenario.inherited_ok Scenario.world0).2 = true →
   same_description Scenario.world0 (wld out.2) = true).
Proof.
  apply (C7_flag_off_is_the_inherited_behaviour
           "/" MODULES_TO_COMPILE (Some Scenario.Cython_ok)
           Scenario.inherited_ok Scenario.inherited_ok
           (build_cythonized.__init__ ∅) Scenario.world0 [] []).
  reflexivity.
Defined.

(** With the flag off, an inherited execution that caches a command class
    in the command table, as [Distribution.get_command_class] does, leaves
    the table with one more entry; the step does not undo it. *)
Lemma C7_counterexample :
  let σ0 := Scenario.start ∅ Scenario.world0 in
  let out := build_cythonized.invoke "/" MODULES_TO_COMPILE (Some Scenario.Cython_ok)
               Scenario.inherited_ok Scenario.inherited_caching σ0 in
  should_cythonize (self σ0) = false ∧
  out.1 = Ok tt ∧
  cmdclass (dist Scenario.world0) = VRef 1 ∧
  heap Scenario.world0 !! 1 = Some (ODict {["build" := VRef 0]}) ∧
  cmdclass (dist (wld out.2)) = VRef 1 ∧
  heap (wld out.2) !! 1
    = Some (ODict (<["build_py" := VRef 2]> {["build" := VRef 0]})) ∧
  same_description Scenario.world0 (wld out.2) = false.
Proof. vm_compute. done. Qed.

(** ** Restoration *)

Lemma invoke_Raised_in_run sep mods pkg bf br s w lg t x σ' :
  should_cythonize s = true →
  build_cythonized.invoke sep mods pkg bf br (State s w lg t) = (Raised x, σ') →
  EvInherited Prun ∈ new_events (State s w lg t) σ' →
  ∃ w4, br w4 = (Raised x, wld σ').
Proof.
  intros Hf. unfold build_cythonized.invoke. unfold bind at 1.
  destruct (build_cythonized.finalize_options _ _ _ _ _) as [r1 σ1] eqn:Hfin.
  apply finalize_options_outcome in Hfin; [|done].
  destruct Hfin as [σ1 Hs Ht Hlg Hd Hh|c e hc he Hc He Hp|c e hc he cy y Hc He Hp Hcy
                   |c e hc he cy names r1 w4 Hc He Hp Hcy Hbf].
  - intros [= <- <-] Hin. exfalso. destruct σ1 as [s1 w1 lg1 t1]. simpl in *. subst.
    rewrite <- (app_nil_r t) in Hin at 2. rewrite new_events_app in Hin.
    by apply elem_of_nil in Hin.
  - intros [= <- <-] Hin. exfalso. rewrite new_events_app in Hin.
    by apply list_elem_of_singleton in Hin.
  - intros [= <- <-] Hin. exfalso. rewrite new_events_app in Hin.
    apply elem_of_cons in Hin as [[=]|Hin]. by apply list_elem_of_singleton in Hin.
  - destruct r1 as [[]|y].
    + erewrite run_true; [|done|apply snapshot_of_cmdclass|apply snapshot_of_ext_modules].
      destruct (br w4) as [[[]|z] w5] eqn:Hbr; intros [= <- <-] _. by exists w4.
    + intros [= <- <-] Hin. exfalso. rewrite new_events_app in Hin.
      repeat (apply elem_of_cons in Hin as [[=]|Hin]). by apply elem_of_nil in Hin.
Qed.

(** C1 (as the code has it): take an invocation with the flag set, on a
    description without dangling references, with inherited phases that
    neither change nor obtain a reference to objects they cannot reach
    from the distribution.  When it returns normally (so the inherited
    execution returned normally), the write-back has run, and each of the
    two fields is restored as follows: a field that was a non-empty
    collection before the configuration phase holds a collection with the
    same items, a field that was [None] or an empty collection holds
    [None]; hence, when each field was [None] or non-empty, the description
    is identical by value to what it was before the configuration phase.
    When the invocation raises, no write-back has run; and when it is the
    inherited execution that raised, the description is left exactly as
    the inherited execution left it. *)
Theorem C1_restoration_only_after_normal_return
    (sep : string) (mods : list string) (pkg : option cython)
    (bf br : world → result unit * world)
    (s : command) (w : world) (lg : list (nat * string)) (t : list event)
    (r : result unit) (σ' : state) :
  should_cythonize s = true →
  closed w →
  well_behaved bf →
  well_behaved br →
  build_cythonized.invoke sep mods pkg bf br (State s w lg t) = (r, σ') →
  match r with
  | Ok _ =>
      restored (heap w) (cmdclass (dist w)) (heap (wld σ')) (cmdclass (dist (wld σ'))) ∧
      restored (heap w) (ext_modules (dist w))
               (heap (wld σ')) (ext_modules (dist (wld σ'))) ∧
      [EvRestore Fcmdclass (cmdclass (dist (wld σ')));
       EvRestore Fext_modules (ext_modules (dist (wld σ')))] `suffix_of` trace σ' ∧
      ((cmdclass (dist w) = VNone ∨ truthy (heap w) (cmdclass (dist w)) = true) →
       (ext_modules (dist w) = VNone ∨ truthy (heap w) (ext_modules (dist w)) = true) →
       same_description w (wld σ') = true)
  | Raised x =>
      count (is_restore Fcmdclass) (new_events (State s w lg t) σ') = 0 ∧
      count (is_restore Fext_modules) (new_events (State s w lg t) σ') = 0 ∧
      (EvInherited Prun ∈ new_events (State s w lg t) σ' →
       ∃ w4, br w4 = (Raised x, wld σ'))
  end.
Proof.
  intros Hf Hcl Hwf Hwr Hinv. destruct r as [[]|x].
  - destruct (invoke_restores _ _ _ _ _ _ _ _ _ _ Hf Hcl Hwf Hwr Hinv) as (_ & Hc & He).
    apply copied_restored in Hc, He.
    assert (Hval : ∀ v v', restored (heap w) v (heap (wld σ')) v' →
              v = VNone ∨ truthy (heap w) v = true →
              same_value (heap w) v (heap (wld σ')) v' = true).
    { intros v v' Hr [-> | Ht]; unfold restored in Hr.
      - simpl in Hr. by subst.
      - by rewrite Ht in Hr. }
    split_and!; try done.
    + apply invoke_Ok_inv in Hinv
        as (c & e & hc & he & cy & names & w4 & w5 & _ & _ & _ & _ & _ & _ & ->); [|done].
      simpl.
      exists (t ++ [EvSnapshot c e;
                    EvCythonize (build_cythonized.files sep mods) language_level exclude;
                    EvMutate (VRef (length (heap w ++ hc ++ he) + length names));
                    EvInherited Pfinalize_options; EvInherited Prun]).
      by rewrite <- app_assoc.
    + intros H1 H2. unfold same_description. by rewrite !Hval.
  - split_and!.
    + destruct (invoke_trace _ _ _ _ _ _ _ _ _ _ _ Hf Hinv) as (c & e & v & n & -> & Hn).
      do 6 (destruct n as [|n]; [done|]). lia.
    + destruct (invoke_trace _ _ _ _ _ _ _ _ _ _ _ Hf Hinv) as (c & e & v & n & -> & Hn).
      do 6 (destruct n as [|n]; [done|]). lia.
    + by eapply invoke_Raised_in_run.
Qed.

(** The write-back is skipped when the inherited execution raises, and an
    empty list does not come back as an empty list. *)
Lemma C1_counterexample :
  (let σ0 := Scenario.start Scenario.environ_on Scenario.world0 in
   let out := build_cythonized.invoke "/" MODULES_TO_COMPILE (Some Scenario.Cython_ok)
                Scenario.inherited_ok Scenario.inherited_fails σ0 in
   should_cythonize (self σ0) = true ∧
   out.1 = Raised Scenario.toolchain_error ∧
   ext_modules (dist Scenario.world0) = VNone ∧
   ext_modules (dist (wld out.2)) = VRef 5 ∧
   same_description Scenario.world0 (wld out.2) = false) ∧
  (let σ0 := Scenario.start Scenario.environ_on Scenario.world_empty in
   let out := build_cythonized.invoke "/" MODULES_TO_COMPILE (Some Scenario.Cython_ok)
                Scenario.inherited_ok Scenario.inherited_ok σ0 in
   should_cythonize (self σ0) = true ∧
   out.1 = Ok tt ∧
   heap Scenario.world_empty !! 1 = Some (OList []) ∧
   ext_modules (dist Scenario.world_empty) = VRef 1 ∧
   ext_modules (dist (wld out.2)) = VNone ∧
   same_description Scenario.world_empty (wld out.2) = false).
Proof. vm_compute. done. Qed.

(** The theorem at a build whose inherited execution adds an entry to the
    original command table: the restored table is the copy, without it. *)
Lemma C1_witness :
  let σ0 := Scenario.start Scenario.environ_on Scenario.world_ext in
  let σ' := (build_cythonized.invoke "/" MODULES_TO_COMPILE (Some Scenario.Cython_ok)
               Scenario.inherited_ok Scenario.inherited_caching σ0).2 in
  restored (heap Scenario.world_ext) (cmdclass (dist Scenario.world_ext))
           (heap (wld σ')) (cmdclass (dist (wld σ'))) ∧
  restored (heap Scenario.world_ext) (ext_modules (dist Scenario.world_ext))
           (heap (wld σ')) (ext_modules (dist (wld σ'))) ∧
  [EvRestore Fcmdclass (cmdclass (dist (wld σ')));
   EvRestore Fext_modules (ext_modules (dist (wld σ')))] `suffix_of` trace σ' ∧
  ((cmdclass (dist Scenario.world_ext) = VNone ∨
    truthy (heap Scenario.world_ext) (cmdclass (dist Scenario.world_ext)) = true) →
   (ext_modules (dist Scenario.world_ext) = VNone ∨
    truthy (heap Scenario.world_ext) (ext_modules (dist Scenario.world_ext)) = true) →
   same_description Scenario.world_ext (wld σ') = true).
Proof.
  intros σ0 σ'.
  apply (C1_restoration_only_after_normal_return
           "/" MODULES_TO_COMPILE (Some Scenario.Cython_ok)
           Scenario.inherited_ok Scenario.inherited_caching
           (build_cythonized.__init__ Scenario.environ_on) Scenario.world_ext [] []
           (Ok tt) σ').
  - reflexivity.
  - exact closed_world_ext.
  - exact well_behaved_inherited_ok.
  - exact well_behaved_inherited_caching.
  - vm_compute. reflexivity.
Defined.

(** C2 (as the code has it): when the flag is set and the invocation
    returns normally, each restored field is the very value held in the
    snapshot ([stored_options]); that value is never the object the field
    held before the configuration phase, since the snapshot holds a copy of
    a non-empty collection and [None] otherwise.  Only a field that was
    [None] gets the same value back. *)
Theorem C2_restored_values_are_the_snapshot_entries
    (sep : string) (mods : list string) (pkg : option cython)
    (bf br : world → result unit * world)
    (s : command) (w : world) (lg : list (nat * string)) (t : list event)
    (σ' : state) :
  should_cythonize s = true →
  build_cythonized.invoke sep mods pkg bf br (State s w lg t) = (Ok tt, σ') →
  stored_options (self σ') !! "cmdclass" = Some (cmdclass (dist (wld σ'))) ∧
  stored_options (self σ') !! "ext_modules" = Some (ext_modules (dist (wld σ'))) ∧
  (∀ l, cmdclass (dist w) = VRef l → cmdclass (dist (wld σ')) ≠ VRef l) ∧
  (∀ l, ext_modules (dist w) = VRef l → ext_modules (dist (wld σ')) ≠ VRef l) ∧
  (cmdclass (dist w) = VNone → cmdclass (dist (wld σ')) = VNone) ∧
  (ext_modules (dist w) = VNone → ext_modules (dist (wld σ')) = VNone).
Proof.
  intros Hf Hinv.
  apply invoke_Ok_inv in Hinv
    as (c & e & hc & he & cy & names & w4 & w5 & Hc & He & _ & _ & _ & _ & ->); [|done].
  simpl.
  assert (Hnew : ∀ h v c' extra, snap h v c' extra →
            (∀ l, v = VRef l → c' ≠ VRef l) ∧ (v = VNone → c' = VNone)).
  { intros h v c' extra Hs.
    apply snap_inv in Hs as [(Ht & -> & ->)|(l0 & o & -> & Hl0 & _ & _ & -> & ->)].
    - split; [done|done].
    - split; [|done]. intros l [= <-] [= Heq].
      apply lookup_lt_Some in Hl0. lia. }
  destruct (Hnew _ _ _ _ Hc) as [Hc1 Hc2], (Hnew _ _ _ _ He) as [He1 He2].
  split_and!; try done.
  - apply snapshot_of_cmdclass.
  - apply snapshot_of_ext_modules.
Qed.

(** The restored command table is a copy at a new address. *)
Lemma C2_counterexample :
  let σ0 := Scenario.start Scenario.environ_on Scenario.world0 in
  let out := build_cythonized.invoke "/" MODULES_TO_COMPILE (Some Scenario.Cython_ok)
               Scenario.inherited_ok Scenario.inherited_ok σ0 in
  should_cythonize (self σ0) = true ∧
  out.1 = Ok tt ∧
  cmdclass (dist (wld σ0)) = VRef 1 ∧
  cmdclass (dist (wld out.2)) = VRef 2 ∧
  cmdclass (dist (wld out.2)) ≠ cmdclass (dist (wld σ0)).
Proof. vm_compute. split_and!; done. Qed.

(** The theorem at the same build. *)
Lemma C2_witness :
  let σ0 := Scenario.start Scenario.environ_on Scenario.world_ext in
  let σ' := (build_cythonized.invoke "/" MODULES_TO_COMPILE (Some Scenario.Cython_ok)
               Scenario.inherited_ok Scenario.inherited_caching σ0).2 in
  stored_options (self σ') !! "cmdclass" = Some (cmdclass (dist (wld σ'))) ∧
  stored_options (self σ') !! "ext_modules" = Some (ext_modules (dist (wld σ'))) ∧
  (∀ l, cmdclass (dist Scenario.world_ext) = VRef l → cmdclass (dist (wld σ')) ≠ VRef l) ∧
  (∀ l, ext_modules (dist Scenario.world_ext) = VRef l →
        ext_modules (dist (wld σ')) ≠ VRef l) ∧
  (cmdclass (dist Scenario.world_ext) = VNone → cmdclass (dist (wld σ')) = VNone) ∧
  (ext_modules (dist Scenario.world_ext) = VNone → ext_modules (dist (wld σ')) = VNone).
Proof.
  apply (C2_restored_values_are_the_snapshot_entries
           "/" MODULES_TO_COMPILE (Some Scenario.Cython_ok)
           Scenario.inherited_ok Scenario.inherited_caching
           (build_cythonized.__init__ Scenario.environ_on) Scenario.world_ext [] []).
  - reflexivity.
  - vm_compute. reflexivity.
Defined.

(** ** Two invocations in a row *)

Lemma restored_twice h0 v0 h1 v1 h2 v2 :
  restored h0 v0 h1 v1 → restored h1 v1 h2 v2 → same_value h1 v1 h2 v2 = true.
Proof.
  intros H01 H12. apply restored_None_or_truthy in H01 as [-> | Ht];
    unfold restored in H12.
  - simpl in H12. by subst.
  - by rewrite Ht in H12.
Qed.

(** C8: run the configure-execute-restore sequence on a description, and
    run it a second time on what the first run left (with the same command
    object or a new one, flag set both times): the description after the
    second run is identical by value to the description after the first.
    Both runs are taken to return normally, and the inherited phases not to
    touch objects they hold no reference to. *)
Theorem C8_second_run_leaves_the_restored_state
    (sep : string) (mods : list string) (pkg : option cython)
    (bf br : world → result unit * world)
    (s : command) (w : world) (lg : list (nat * string)) (t : list event)
    (σ1 : state)
    (s2 : command) (lg2 : list (nat * string)) (t2 : list event) (σ2 : state) :
  should_cythonize s = true →
  should_cythonize s2 = true →
  closed w →
  well_behaved bf →
  well_behaved br →
  build_cythonized.invoke sep mods pkg bf br (State s w lg t) = (Ok tt, σ1) →
  build_cythonized.invoke sep mods pkg bf br (State s2 (wld σ1) lg2 t2) = (Ok tt, σ2) →
  same_description (wld σ1) (wld σ2) = true.
Proof.
  intros Hf Hf2 Hcl Hwf Hwr Hinv1 Hinv2.
  destruct (invoke_restores _ _ _ _ _ _ _ _ _ _ Hf Hcl Hwf Hwr Hinv1) as (Hcl1 & Hc1 & He1).
  destruct (invoke_restores _ _ _ _ _ _ _ _ _ _ Hf2 Hcl1 Hwf Hwr Hinv2) as (_ & Hc2 & He2).
  apply copied_restored in Hc1, He1, Hc2, He2.
  unfold same_description.
  rewrite (restored_twice _ _ _ _ _ _ Hc1 Hc2), (restored_twice _ _ _ _ _ _ He1 He2).
  done.
Qed.

(** The theorem at two runs in a row with the same command object. *)
Lemma C8_witness :
  let σ0 := Scenario.start Scenario.environ_on Scenario.world_ext in
  let σ1 := (build_cythonized.invoke "/" MODULES_TO_COMPILE (Some Scenario.Cython_ok)
               Scenario.inherited_ok Scenario.inherited_caching σ0).2 in
  let σ2 := (build_cythonized.invoke "/" MODULES_TO_COMPILE (Some Scenario.Cython_ok)
               Scenario.inherited_ok Scenario.inherited_caching σ1).2 in
  same_description (wld σ1) (wld σ2) = true.
Proof.
  intros σ0 σ1 σ2.
  apply (C8_second_run_leaves_the_restored_state
           "/" MODULES_TO_COMPILE (Some Scenario.Cython_ok)
           Scenario.inherited_ok Scenario.inherited_caching
           (build_cythonized.__init__ Scenario.environ_on) Scenario.world_ext [] []
           σ1 (self σ1) (announced σ1) (trace σ1) σ2).
  - reflexivity.
  - vm_compute. reflexivity.
  - exact closed_world_ext.
  - exact well_behaved_inherited_ok.
  - exact well_behaved_inherited_caching.
  - vm_compute. reflexivity.
  - vm_compute. reflexivity.
Defined.


(** * Further properties of the build step *)

Lemma run_inv br s w lg t r σ' :
  build_cythonized.run br (State s w lg t) = (r, σ') →
  self σ' = s ∧ announced σ' = lg ∧ heap (wld σ') = heap (br w).2.
Proof.
  unfold build_cythonized.run. unfold bind at 1.
  rewrite super_run. destruct (br w) as [[[]|x] w']; [|by intros [= <- <-]].
  unfold getitem. mred. destruct (should_cythonize s); [|by intros [= <- <-]]. simpl.
  destruct (stored_options s !! "cmdclass"); [|by intros [= <- <-]]. simpl.
  destruct (stored_options s !! "ext_modules"); by intros [= <- <-].
Qed.

Lemma compiled_prefix w extra names : heap w `prefix_of` heap (compiled w extra names).
Proof. unfold compiled. simpl. rewrite <- app_assoc. apply prefix_app_r. done. Qed.

(** X1: with the flag set, when the inherited configuration raises after
    the compiled list has been installed, the configuration phase ends
    with that very exception and the world is as the inherited
    configuration left the compiled description: nothing is restored, and
    the invocation ends there, without an execution phase. *)
Theorem X1_failed_inherited_configuration_is_not_restored
    (sep : string) (mods : list string) (pkg : option cython)
    (bf br : world → result unit * world)
    (s : command) (w : world) (lg : list (nat * string)) (t : list event)
    (x : exn) (σ' : state) :
  should_cythonize s = true →
  build_cythonized.finalize_options sep mods pkg bf (State s w lg t) = (Raised x, σ') →
  EvInherited Pfinalize_options ∈ new_events (State s w lg t) σ' →
  (∃ extra names, bf (compiled w extra names) = (Raised x, wld σ')) ∧
  build_cythonized.invoke sep mods pkg bf br (State s w lg t) = (Raised x, σ') ∧
  count (is_restore Fcmdclass) (new_events (State s w lg t) σ') = 0 ∧
  count (is_restore Fext_modules) (new_events (State s w lg t) σ') = 0 ∧
  count is_mutation (new_events (State s w lg t) σ') = 1.
Proof.
  intros Hf Hfin Hin.
  assert (Hinv : build_cythonized.invoke sep mods pkg bf br (State s w lg t)
                 = (Raised x, σ')).
  { unfold build_cythonized.invoke. unfold bind at 1. by rewrite Hfin. }
  apply finalize_options_outcome in Hfin; [|done].
  inversion Hfin as [σ1 Hs Ht Hlg Hd Hh|c e hc he Hc He Hp|c e hc he cy x' Hc He Hp Hcy
                    |c e hc he cy names r w4 Hc He Hp Hcy Hbf]; subst.
  - exfalso. destruct σ' as [s1 w1 lg1 t1]. simpl in *.
    rewrite <- (app_nil_r t1) in Hin at 2. rewrite new_events_app in Hin.
    by apply elem_of_nil in Hin.
  - exfalso. rewrite new_events_app in Hin. by apply list_elem_of_singleton in Hin.
  - exfalso. rewrite new_events_app in Hin.
    apply elem_of_cons in Hin as [[=]|Hin]. by apply list_elem_of_singleton in Hin.
  - rewrite new_events_app. split_and!; try done. by exists (hc ++ he), names.
Qed.

(** The theorem at a build whose inherited configuration fails. *)
Lemma X1_witness :
  let σ0 := Scenario.start Scenario.environ_on Scenario.world0 in
  let σ' := (build_cythonized.finalize_options "/" MODULES_TO_COMPILE
               (Some Scenario.Cython_ok) Scenario.inherited_fails σ0).2 in
  (∃ extra names,
     Scenario.inherited_fails (compiled Scenario.world0 extra names)
     = (Raised Scenario.toolchain_error, wld σ')) ∧
  build_cythonized.invoke "/" MODULES_TO_COMPILE (Some Scenario.Cython_ok)
    Scenario.inherited_fails Scenario.inherited_ok σ0
  = (Raised Scenario.toolchain_error, σ') ∧
  count (is_restore Fcmdclass) (new_events σ0 σ') = 0 ∧
  count (is_restore Fext_modules) (new_events σ0 σ') = 0 ∧
  count is_mutation (new_events σ0 σ') = 1.
Proof.
  apply (X1_failed_inherited_configuration_is_not_restored
           "/" MODULES_TO_COMPILE (Some Scenario.Cython_ok)
           Scenario.inherited_fails Scenario.inherited_ok
           (build_cythonized.__init__ Scenario.environ_on) Scenario.world0 [] []).
  - reflexivity.
  - vm_compute. reflexivity.
  - vm_compute. apply list_elem_of_In. simpl. auto 10.
Defined.

(** X2: [run] on a command whose flag is set but which holds no snapshot
    (its configuration phase was never run) first runs the inherited
    execution and then fails with [KeyError] on the first entry it reads;
    nothing is written to the distribution. *)
Theorem X2_run_without_snapshot_raises_KeyError
    (br : world → result unit * world)
    (s : command) (w : world) (lg : list (nat * string)) (t : list event)
    (w' : world) :
  should_cythonize s = true →
  stored_options s !! "cmdclass" = None →
  br w = (Ok tt, w') →
  build_cythonized.run br (State s w lg t)
  = (Raised (KeyError "cmdclass"), State s w' lg (t ++ [EvInherited Prun])).
Proof.
  intros Hf Hk Hbr. unfold build_cythonized.run. unfold bind at 1.
  rewrite super_run, Hbr. unfold getitem. mred. rewrite Hf. simpl. by rewrite Hk.
Qed.

(** The theorem at a command that has just been constructed. *)
Lemma X2_witness :
  build_cythonized.run Scenario.inherited_caching
    (Scenario.start Scenario.environ_on Scenario.world0)
  = (Raised (KeyError "cmdclass"),
     State (build_cythonized.__init__ Scenario.environ_on)
           (Scenario.inherited_caching Scenario.world0).2 []
           ([] ++ [EvInherited Prun])).
Proof.
  apply (X2_run_without_snapshot_raises_KeyError Scenario.inherited_caching
           (build_cythonized.__init__ Scenario.environ_on) Scenario.world0 [] []).
  - reflexivity.
  - reflexivity.
  - reflexivity.
Defined.

(** X3: after a configuration phase that returned normally with the flag
    set, [run] has the result of the inherited execution: the step's own
    write-back cannot fail (both entries are in the snapshot), and an
    exception of the inherited execution comes out unchanged, with the world
    exactly as the inherited execution left it. *)
Theorem X3_run_after_configuration_has_the_inherited_result
    (sep : string) (mods : list string) (pkg : option cython)
    (bf br : world → result unit * world)
    (s : command) (w : world) (lg : list (nat * string)) (t : list event)
    (σ1 : state) :
  should_cythonize s = true →
  build_cythonized.finalize_options sep mods pkg bf (State s w lg t) = (Ok tt, σ1) →
  (build_cythonized.run br σ1).1 = (br (wld σ1)).1 ∧
  (∀ x, (br (wld σ1)).1 = Raised x →
        wld (build_cythonized.run br σ1).2 = (br (wld σ1)).2) ∧
  self (build_cythonized.run br σ1).2 = self σ1.
Proof.
  intros Hf Hfin.
  apply finalize_options_Ok_inv in Hfin
    as (c & e & hc & he & cy & names & w4 & _ & _ & _ & _ & _ & ->); [|done].
  erewrite run_true; [|done|apply snapshot_of_cmdclass|apply snapshot_of_ext_modules].
  simpl. destruct (br w4) as [[[]|x] w5]; simpl; split_and!; done.
Qed.

(** The theorem at a failing toolchain, after a configuration phase. *)
Lemma X3_witness :
  let σ1 := (build_cythonized.finalize_options "/" MODULES_TO_COMPILE
               (Some Scenario.Cython_ok) Scenario.inherited_ok
               (Scenario.start Scenario.environ_on Scenario.world0)).2 in
  (build_cythonized.run Scenario.inherited_fails σ1).1
    = (Scenario.inherited_fails (wld σ1)).1 ∧
  (∀ x, (Scenario.inherited_fails (wld σ1)).1 = Raised x →
        wld (build_cythonized.run Scenario.inherited_fails σ1).2
        = (Scenario.inherited_fails (wld σ1)).2) ∧
  self (build_cythonized.run Scenario.inherited_fails σ1).2 = self σ1.
Proof.
  apply (X3_run_after_configuration_has_the_inherited_result
           "/" MODULES_TO_COMPILE (Some Scenario.Cython_ok)
           Scenario.inherited_ok Scenario.inherited_fails
           (build_cythonized.__init__ Scenario.environ_on) Scenario.world0 [] []).
  - reflexivity.
  - vm_compute. reflexivity.
Defined.

(** X4: the snapshot is all or nothing.  With the flag set, when one of the
    two fields refers to an object that is true and has no [copy] method
    (a non-empty tuple), the configuration phase ends with
    [AttributeError] before anything is stored: [stored_options] is
    untouched (an earlier snapshot survives), the step announces nothing,
    the collaborator and the inherited configuration are not called, and
    the distribution is not changed. *)
Theorem X4_snapshot_is_all_or_nothing
    (sep : string) (mods : list string) (pkg : option cython)
    (bf : world → result unit * world)
    (s : command) (w : world) (lg : list (nat * string)) (t : list event)
    (r : result unit) (σ' : state) :
  should_cythonize s = true →
  closed w →
  true_without_copy (heap w) (cmdclass (dist w)) ∨
  true_without_copy (heap w) (ext_modules (dist w)) →
  build_cythonized.finalize_options sep mods pkg bf (State s w lg t) = (r, σ') →
  r = Raised (AttributeError "copy") ∧
  self σ' = s ∧
  announced σ' = lg ∧
  trace σ' = t ∧
  dist (wld σ') = dist w ∧
  heap w `prefix_of` heap (wld σ').
Proof.
  intros Hf [Hroot _] Hun. rewrite finalize_options_true by done.
  destruct (build_cythonized.store_options _) as [[[]|x] σ1] eqn:Hs.
  - exfalso. apply store_options_inv in Hs as (c & e & hc & he & Hc & He & _).
    assert (Hno : ∀ h v c' extra, true_without_copy h v → ¬ snap h v c' extra).
    { intros h v c' extra (l & d & -> & Hl) Hsn.
      apply snap_inv in Hsn as [(Ht & _)|(l0 & o & [= <-] & Hl0 & Hcp & _)].
      - simpl in Ht. by rewrite Hl in Ht.
      - rewrite Hl in Hl0. injection Hl0 as <-. done. }
    destruct Hun as [Hun|(l & d & El & Hl)]; [by eapply Hno|].
    eapply (Hno (heap w ++ hc)); [|exact He].
    exists l, d. split; [done|]. rewrite lookup_app_l; [done|].
    apply Hroot. by right.
  - apply store_options_inv in Hs as (-> & ? & ? & ? & ? & ?).
    intros [= <- <-]. done.
Qed.

(** The theorem at a distribution whose [ext_modules] is a non-empty tuple. *)
Lemma X4_witness :
  let w := World (Distribution (VRef 1) (VRef 2))
             [OOpaque "class build_cythonized"; ODict {["build" := VRef 0]};
              OOpaque "non-empty tuple"] in
  let out := build_cythonized.finalize_options "/" MODULES_TO_COMPILE
               (Some Scenario.Cython_ok) Scenario.inherited_ok
               (Scenario.start Scenario.environ_on w) in
  out.1 = Raised (AttributeError "copy") ∧
  self out.2 = build_cythonized.__init__ Scenario.environ_on ∧
  announced out.2 = [] ∧
  trace out.2 = [] ∧
  dist (wld out.2) = dist w ∧
  heap w `prefix_of` heap (wld out.2).
Proof.
  intros w out.
  apply (X4_snapshot_is_all_or_nothing
           "/" MODULES_TO_COMPILE (Some Scenario.Cython_ok) Scenario.inherited_ok
           (build_cythonized.__init__ Scenario.environ_on) w [] [] out.1 out.2).
  - reflexivity.
  - split.
    + intros l [[= <-]|[= <-]]; simpl; lia.
    + intros [|[|[|a]]] o l; simpl; intros [= <-]; simpl; try done.
      intros Hr. apply refers_singleton_dict in Hr. injection Hr as <-. lia.
  - right. exists 2, "non-empty tuple". split; reflexivity.
  - vm_compute. reflexivity.
Defined.

(** X5: the step changes no object of the heap in place; what it mutates
    is its own [stored_options] and the two attributes of the
    distribution, which it rebinds.  Whenever the inherited configuration
    is called, whatever the flag, every object that existed before the
    invocation is handed to it unchanged, with only new objects added (the
    copies and the compiled list); from then on the objects are as the
    inherited configuration left them, if it raised, or as the inherited
    execution left them.  When the inherited configuration is not reached,
    the objects that existed before are unchanged. *)
Theorem X5_the_step_only_adds_objects
    (sep : string) (mods : list string) (pkg : option cython)
    (bf br : world → result unit * world)
    (s : command) (w : world) (lg : list (nat * string)) (t : list event)
    (r : result unit) (σ' : state) :
  build_cythonized.invoke sep mods pkg bf br (State s w lg t) = (r, σ') →
  ((EvInherited Pfinalize_options ∉ new_events (State s w lg t) σ') ∧
   (∀ l o, heap w !! l = Some o → heap (wld σ') !! l = Some o)) ∨
  (∃ w3 r1 w4,
     (∀ l o, heap w !! l = Some o → heap w3 !! l = Some o) ∧
     heap w `prefix_of` heap w3 ∧
     bf w3 = (r1, w4) ∧
     match r1 with
     | Raised _ => r = r1 ∧ wld σ' = w4
     | Ok _ => heap (wld σ') = heap (br w4).2
     end).
Proof.
  assert (Hpre : ∀ h h' : list object, h `prefix_of` h' →
            ∀ l o, h !! l = Some o → h' !! l = Some o).
  { intros h h' [k ->] l o Hl. rewrite lookup_app_l; [done|]. by eapply lookup_lt_Some. }
  assert (Hrun : ∀ s1 w1 lg1 t1 r2 σ2,
            build_cythonized.run br (State s1 w1 lg1 t1) = (r2, σ2) →
            heap (wld σ2) = heap (br w1).2).
  { intros s1 w1 lg1 t1 r2 σ2 Hr. by apply run_inv in Hr as (_ & _ & Hh). }
  unfold build_cythonized.invoke. unfold bind at 1.
  destruct (build_cythonized.finalize_options _ _ _ _ _) as [r1 σ1] eqn:Hfin.
  destruct (should_cythonize s) eqn:Hf.
  - apply finalize_options_outcome in Hfin; [|done].
    destruct Hfin as [σ1 Hs Ht Hlg Hd Hh|c e hc he Hc He Hp|c e hc he cy y Hc He Hp Hcy
                     |c e hc he cy names r1 w4 Hc He Hp Hcy Hbf].
    + intros [= <- <-]. left. split; [|by apply Hpre].
      destruct σ1 as [s1 w1 lg1 t1]. simpl in *. subst.
      rewrite <- (app_nil_r t) at 2. rewrite new_events_app. apply not_elem_of_nil.
    + intros [= <- <-]. left. rewrite new_events_app. split.
      * by intros [=]%list_elem_of_singleton.
      * apply Hpre. simpl. by apply prefix_app_r.
    + intros [= <- <-]. left. rewrite new_events_app. split.
      * intros Hin. apply elem_of_cons in Hin as [[=]|Hin].
        by apply list_elem_of_singleton in Hin.
      * apply Hpre. simpl. by apply prefix_app_r.
    + intros Hrest. right. exists (compiled w (hc ++ he) names), r1, w4.
      split_and!; [apply Hpre, compiled_prefix|apply compiled_prefix|done|].
      destruct r1 as [[]|y]; [|by injection Hrest as <- <-].
      by apply Hrun in Hrest.
  - rewrite finalize_options_false, super_run in Hfin by done.
    destruct (bf w) as [r' w'] eqn:Hb. injection Hfin as <- <-.
    intros Hrest. right. exists w, r', w'. split_and!; [done|done|done|].
    destruct r' as [[]|y]; [|by injection Hrest as <- <-].
    by apply Hrun in Hrest.
Qed.

(** The theorem at a build whose inherited execution changes the command
    table in place. *)
Lemma X5_witness :
  let σ0 := Scenario.start Scenario.environ_on Scenario.world_ext in
  let out := build_cythonized.invoke "/" MODULES_TO_COMPILE (Some Scenario.Cython_ok)
               Scenario.inherited_ok Scenario.inherited_caching σ0 in
  ((EvInherited Pfinalize_options ∉ new_events σ0 out.2) ∧
   (∀ l o, heap Scenario.world_ext !! l = Some o → heap (wld out.2) !! l = Some o)) ∨
  (∃ w3 r1 w4,
     (∀ l o, heap Scenario.world_ext !! l = Some o → heap w3 !! l = Some o) ∧
     heap Scenario.world_ext `prefix_of` heap w3 ∧
     Scenario.inherited_ok w3 = (r1, w4) ∧
     match r1 with
     | Raised _ => out.1 = r1 ∧ wld out.2 = w4
     | Ok _ => heap (wld out.2) = heap (Scenario.inherited_caching w4).2
     end).
Proof.
  intros σ0 out.
  apply (X5_the_step_only_adds_objects
           "/" MODULES_TO_COMPILE (Some Scenario.Cython_ok)
           Scenario.inherited_ok Scenario.inherited_caching
           (build_cythonized.__init__ Scenario.environ_on) Scenario.world_ext [] []
           out.1 out.2).
  vm_compute. reflexivity.
Defined.




(** * Properties of selector resolution (line 106) *)

Lemma str_app_nil_l s : "" +:+ s = s.
Proof. reflexivity. Qed.

Lemma str_app_cons c s t : String c s +:+ t = String c (s +:+ t).
Proof. reflexivity. Qed.

Lemma str_app_assoc s t u : (s +:+ t) +:+ u = s +:+ (t +:+ u).
Proof.
  induction s as [|c s IH]; [done|]. rewrite !str_app_cons. by rewrite IH.
Qed.

Lemma str_length_app s t : String.length (s +:+ t) = String.length s + String.length t.
Proof.
  induction s as [|c s IH]; [done|]. rewrite str_app_cons. simpl. by rewrite IH.
Qed.

Lemma str_app_inv_tail s1 s2 t : s1 +:+ t = s2 +:+ t → s1 = s2.
Proof.
  revert s2. induction s1 as [|c s1 IH]; intros [|c2 s2] H.
  - done.
  - exfalso. apply (f_equal String.length) in H.
    rewrite str_app_nil_l, str_app_cons in H. simpl in H.
    rewrite str_length_app in H. lia.
  - exfalso. apply (f_equal String.length) in H.
    rewrite str_app_nil_l, str_app_cons in H. simpl in H.
    rewrite str_length_app in H. lia.
  - rewrite !str_app_cons in H. injection H as -> H. f_equal. by apply IH.
Qed.

(** With a pattern of one character, [replace] is a substitution character
    by character. *)
Lemma replace_single a new s : PyStr.replace s (String a "") new = subst_char a new s.
Proof.
  unfold PyStr.replace. induction s as [|c s IH]; [done|].
  assert (Hp : String.prefix (String a "") (String c s) = bool_decide (c = a)).
  { simpl. destruct (Ascii.ascii_dec a c) as [->|Hne].
    - rewrite bool_decide_eq_true_2 by done. by destruct s.
    - rewrite bool_decide_eq_false_2 by congruence. done. }
  cbn [PyStr.replace_from subst_char]. rewrite Hp. cbn [String.length Nat.sub].
  rewrite IH. destruct (decide (c = a)).
  - by rewrite bool_decide_eq_true_2.
  - by rewrite bool_decide_eq_false_2.
Qed.

Lemma subst_char_app a new s1 s2 :
  subst_char a new (s1 +:+ s2) = subst_char a new s1 +:+ subst_char a new s2.
Proof.
  induction s1 as [|c s1 IH]; [done|]. rewrite str_app_cons. simpl.
  destruct (decide (c = a)).
  - by rewrite IH, str_app_assoc.
  - by rewrite IH, str_app_cons.
Qed.

Lemma subst_char_absent a new s : occurs a s = false → subst_char a new s = s.
Proof.
  induction s as [|c s IH]; [done|]. simpl. intros H.
  apply orb_false_iff in H as [Hc Hs]. apply bool_decide_eq_false in Hc.
  rewrite decide_False by done. by rewrite IH.
Qed.

Lemma subst_char_round_trip a b s :
  a ≠ b → occurs b s = false →
  subst_char b (String a "") (subst_char a (String b "") s) = s.
Proof.
  intros Hab. induction s as [|c s IH]; [done|]. simpl. intros H.
  apply orb_false_iff in H as [Hc Hs]. apply bool_decide_eq_false in Hc.
  destruct (decide (c = a)) as [->|Hne].
  - rewrite str_app_cons, str_app_nil_l. simpl. rewrite decide_True by done.
    rewrite str_app_cons, str_app_nil_l. by rewrite IH.
  - simpl. rewrite decide_False by done. by rewrite IH.
Qed.

(** X7: on line 106 the replacement works character by character, so it
    commutes with concatenation, and the pattern of a selector is built
    from its parts: a name without a dot becomes the name followed by
    ".py"; a wildcard selector "pkg.*" becomes the path of pkg, the
    separator and "*.py", the star untouched; and the pattern list of a
    concatenation of selector lists is the concatenation of the pattern
    lists, in the same order. *)
Theorem X7_patterns_are_built_from_the_parts_of_the_selector (sep : string) :
  (∀ s1 s2, PyStr.replace (s1 +:+ s2) "." sep
            = PyStr.replace s1 "." sep +:+ PyStr.replace s2 "." sep) ∧
  (∀ name, occurs dot name = false →
           build_cythonized.files sep [name] = [name +:+ ".py"]) ∧
  (∀ pkg, build_cythonized.files sep [pkg +:+ ".*"]
          = [PyStr.replace pkg "." sep +:+ sep +:+ "*.py"]) ∧
  (∀ pkg name, occurs dot name = false →
           build_cythonized.files sep [pkg +:+ "." +:+ name]
           = [PyStr.replace pkg "." sep +:+ sep +:+ name +:+ ".py"]) ∧
  (∀ l1 l2, build_cythonized.files sep (l1 ++ l2)
            = build_cythonized.files sep l1 ++ build_cythonized.files sep l2).
Proof.
  assert (Happ : ∀ s1 s2, PyStr.replace (s1 +:+ s2) "." sep
            = PyStr.replace s1 "." sep +:+ PyStr.replace s2 "." sep).
  { intros s1 s2. change "." with (String dot ""). rewrite !replace_single.
    apply subst_char_app. }
  assert (Hplain : ∀ name, occurs dot name = false → PyStr.replace name "." sep = name).
  { intros name H. change "." with (String dot ""). rewrite replace_single.
    by apply subst_char_absent. }
  assert (Hdot : PyStr.replace "." "." sep = sep).
  { change "." with (String dot ""). rewrite replace_single. simpl.
    clear. induction sep as [|c s IH]; [done|].
    rewrite str_app_cons. by rewrite IH. }
  unfold build_cythonized.files. split_and!.
  - done.
  - intros name H. rewrite fmap_cons, fmap_nil. by rewrite Hplain.
  - intros pkg. rewrite fmap_cons, fmap_nil. rewrite Happ.
    change ".*" with ("." +:+ "*"). rewrite Happ, Hdot, (Hplain "*") by done.
    by rewrite !str_app_assoc.
  - intros pkg name H. rewrite fmap_cons, fmap_nil.
    rewrite !Happ, Hdot, (Hplain name) by done.
    by rewrite !str_app_assoc.
  - intros l1 l2. by rewrite fmap_app.
Qed.

(** X8: selector resolution loses nothing.  When the path separator is a
    single character other than the dot, and no selector contains it, two
    selector lists with the same pattern list are the same list; in
    particular distinct selectors give distinct patterns. *)
Theorem X8_distinct_selectors_give_distinct_patterns
    (c : Strings.Ascii.ascii) (l1 l2 : list string) :
  c ≠ dot →
  (∀ name, name ∈ l1 ++ l2 → occurs c name = false) →
  build_cythonized.files (String c "") l1 = build_cythonized.files (String c "") l2 →
  l1 = l2.
Proof.
  intros Hc. unfold build_cythonized.files.
  revert l2. induction l1 as [|n1 l1 IH]; intros [|n2 l2] Hfree H; try done.
  rewrite !fmap_cons in H. injection H as Hn Hl.
  apply str_app_inv_tail in Hn.
  change (PyStr.replace n1 (String dot "") (String c "")
          = PyStr.replace n2 (String dot "") (String c "")) in Hn.
  rewrite !replace_single in Hn.
  assert (n1 = n2) as <-.
  { rewrite <- (subst_char_round_trip dot c n1), <- (subst_char_round_trip dot c n2).
    - by rewrite Hn.
    - done.
    - apply Hfree. apply elem_of_app. right. by left.
    - done.
    - apply Hfree. apply elem_of_app. left. by left. }
  f_equal. apply IH; [|done].
  intros name Hin. apply Hfree. apply elem_of_app in Hin as [Hin|Hin].
  - apply elem_of_app. left. by right.
  - apply elem_of_app. right. by right.
Qed.

(** The theorem at the selectors of the script, with "/" as separator. *)
Lemma X8_witness :
  MODULES_TO_COMPILE = MODULES_TO_COMPILE.
Proof.
  apply (X8_distinct_selectors_give_distinct_patterns (Strings.Ascii.ascii_of_nat 47)).
  - vm_compute. discriminate.
  - intros name Hin. apply list_elem_of_In in Hin. vm_compute in Hin.
    repeat (destruct Hin as [<-|Hin]; [reflexivity|]). done.
  - reflexivity.
Defined.

(** * Properties of the rest of the script *)

(** X9: the group "all" (lines 45-47) holds exactly the packages of the
    groups the dict had before: a package is in "all" if and only if some
    group lists it.  Every other group is left as it was. *)
Theorem X9_all_is_the_union_of_the_groups (d : gmap string Script.group) :
  (∃ U, Script.add_all d !! "all" = Some (Script.GSet U) ∧
        ∀ p, p ∈ U ↔ ∃ k g, d !! k = Some g ∧ p ∈ Script.packages g) ∧
  (∀ k, k ≠ "all" → Script.add_all d !! k = d !! k).
Proof.
  unfold Script.add_all. split.
  - eexists. split; [apply lookup_insert_eq|].
    intros p. rewrite elem_of_union_list. split.
    + intros (X & HX & Hp). apply list_elem_of_fmap in HX as (g & -> & Hg).
      apply list_elem_of_fmap in Hg as ([k g'] & -> & Hkg).
      apply elem_of_map_to_list in Hkg. by exists k, g'.
    + intros (k & g & Hk & Hp). exists (Script.packages g). split; [|done].
      apply list_elem_of_fmap. exists g. split; [done|].
      apply list_elem_of_fmap. exists (k, g). split; [done|].
      by apply elem_of_map_to_list.
  - intros k Hk. by rewrite lookup_insert_ne.
Qed.

(** X10: lines 45-50 together never fail, whatever groups the dict
    holds: "cythonize" is "all" with the Cython requirement added and
    nothing else, "all" is unchanged by line 50, and every other group is
    as in the literal.  For the groups of the script, "all" has 12
    packages and "cythonize" 13, and the requirement is the one
    [setup_reqs] asks for when the flag is set. *)
Theorem X10_cythonize_is_all_plus_Cython (d : gmap string Script.group) :
  (∃ U d',
     Script.add_all d !! "all" = Some (Script.GSet U) ∧
     Script.add_cythonize (Script.add_all d) = Ok d' ∧
     d' !! "cythonize" = Some (Script.GSet (U ∪ {["Cython >= 0.28.5"]})) ∧
     d' !! "all" = Some (Script.GSet U) ∧
     (∀ p, p ∈ U ∪ {["Cython >= 0.28.5"]} ↔ p ∈ U ∨ p = "Cython >= 0.28.5") ∧
     (∀ k, k ≠ "all" → k ≠ "cythonize" → d' !! k = d !! k)) ∧
  (∃ d', Script.extras_require = Ok d' ∧
         (size <$> (Script.packages <$> d' !! "all")) = Some 12 ∧
         (size <$> (Script.packages <$> d' !! "cythonize")) = Some 13 ∧
         setup_reqs Scenario.environ_on = ["Cython >= 0.28.5"] ∧
         ∀ p, p ∈ setup_reqs Scenario.environ_on →
              ∃ g, d' !! "cythonize" = Some g ∧ p ∈ Script.packages g).
Proof.
  split.
  - unfold Script.add_cythonize, Script.add_all. rewrite lookup_insert_eq.
    eexists _, _. split_and!; try reflexivity.
    + apply lookup_insert_eq.
    + rewrite lookup_insert_ne by done. apply lookup_insert_eq.
    + intros p. rewrite elem_of_union, elem_of_singleton. done.
    + intros k H1 H2. by rewrite !lookup_insert_ne.
  - unfold Script.extras_require, Script.add_cythonize, Script.add_all.
    rewrite lookup_insert_eq. eexists. split; [reflexivity|].
    rewrite lookup_insert_ne by done. rewrite !lookup_insert_eq.
    split_and!.
    + vm_compute. reflexivity.
    + vm_compute. reflexivity.
    + reflexivity.
    + intros p Hp. eexists. split; [reflexivity|].
      apply list_elem_of_singleton in Hp as ->. simpl.
      apply elem_of_union. right. by apply elem_of_singleton.
Qed.




Lemma lstrip_app_space pre s : all_space pre = true → Script.lstrip (pre +:+ s) = Script.lstrip s.
Proof.
  induction pre as [|c pre IH]; [done|]. rewrite str_app_cons. simpl. intros H.
  apply andb_true_iff in H as [Hc Hpre]. rewrite Hc. by apply IH.
Qed.

Lemma lstrip_head_ok s : head_ok s = true → Script.lstrip s = s.
Proof.
  destruct s as [|c s]; [done|]. simpl. intros H. apply negb_true_iff in H. by rewrite H.
Qed.

Lemma rstrip_all_space s : all_space s = true → Script.rstrip s = "".
Proof.
  induction s as [|c s IH]; [done|]. simpl. intros H.
  apply andb_true_iff in H as [Hc Hs]. by rewrite IH, Hc.
Qed.

Lemma rstrip_app_space s post :
  all_space post = true → Script.rstrip (s +:+ post) = Script.rstrip s.
Proof.
  intros H. induction s as [|c s IH].
  - rewrite str_app_nil_l. by apply rstrip_all_space.
  - rewrite str_app_cons. simpl. by rewrite IH.
Qed.

Lemma rstrip_last_ok s : last_ok s = true → Script.rstrip s = s.
Proof.
  induction s as [|c s IH]; [done|]. destruct s as [|c' s].
  - simpl. intros H. apply negb_true_iff in H. by rewrite H.
  - intros H. change (last_ok (String c' s) = true) in H.
    change (Script.rstrip (String c (String c' s)))
      with (match Script.rstrip (String c' s) with
            | "" => if Script.is_space c then "" else String c ""
            | r => String c r
            end).
    by rewrite IH.
Qed.

Lemma last_ok_rstrip s : last_ok (Script.rstrip s) = true.
Proof.
  induction s as [|c s IH]; [done|]. simpl.
  destruct (Script.rstrip s) as [|c' r] eqn:Hr.
  - destruct (Script.is_space c) eqn:Hc; [done|]. simpl. by rewrite Hc.
  - exact IH.
Qed.

Lemma head_ok_lstrip s : head_ok (Script.lstrip s) = true.
Proof.
  induction s as [|c s IH]; [done|]. simpl.
  destruct (Script.is_space c) eqn:Hc; [done|]. simpl. by rewrite Hc.
Qed.

Lemma head_ok_rstrip s : head_ok s = true → head_ok (Script.rstrip s) = true.
Proof.
  destruct s as [|c s]; [done|]. simpl. intros H. apply negb_true_iff in H.
  destruct (Script.rstrip s); simpl; rewrite ?H; simpl; rewrite ?H; done.
Qed.

(** X12: the version (lines 25-27).  When the version file can be read,
    the version is the text read without the white space around it: it
    neither starts nor ends with white space, stripping it again changes
    nothing, and if the text read is some text that neither starts nor
    ends with white space, with white space before and after (a final
    newline, for instance), the version is exactly that text.  When
    reading raises, or the file does not exist, the script stops with that
    exception. *)
Theorem X12_version_is_the_stripped_text
    (files : gmap string (result string)) (version_file : string) :
  match files !! version_file with
  | Some (Ok text) =>
      ∃ v, Script.nltk_version files version_file = Ok v ∧
           head_ok v = true ∧ last_ok v = true ∧
           Script.strip v = v ∧
           ∀ pre core post,
             text = pre +:+ core +:+ post →
             all_space pre = true → all_space post = true →
             head_ok core = true → last_ok core = true →
             v = core
  | Some (Raised e) => Script.nltk_version files version_file = Raised e
  | None =>
      Script.nltk_version files version_file
      = Raised (Script.FileNotFoundError version_file)
  end.
Proof.
  unfold Script.nltk_version.
  destruct (files !! version_file) as [[content|e]|]; [|done|done].
  exists (Script.strip content). unfold Script.strip.
  assert (Hh : head_ok (Script.rstrip (Script.lstrip content)) = true)
    by apply head_ok_rstrip, head_ok_lstrip.
  split_and!.
  - done.
  - done.
  - apply last_ok_rstrip.
  - rewrite (lstrip_head_ok _ Hh). apply rstrip_last_ok, last_ok_rstrip.
  - intros pre core post -> Hpre Hpost Hhead Hlast.
    rewrite lstrip_app_space by done.
    destruct core as [|c core].
    + rewrite str_app_nil_l.
      assert (Script.lstrip post = "") as ->; [|done].
      clear -Hpost. induction post as [|c post IH]; [done|]. simpl in *.
      apply andb_true_iff in Hpost as [-> Hp]. by apply IH.
    + rewrite lstrip_head_ok.
      * rewrite rstrip_app_space by done. by apply rstrip_last_ok.
      * rewrite str_app_cons. exact Hhead.
Qed.

Example version_with_no_break_space_and_newline :
  Script.nltk_version
    {["nltk/VERSION" :=
        Ok ("3.4.5" +:+ String (Strings.Ascii.ascii_of_nat 160)
                        (String (Strings.Ascii.ascii_of_nat 10) ""))]}
    "nltk/VERSION"
  = Ok "3.4.5".
Proof. vm_compute. reflexivity. Qed.
